(** * Agentic Injection System v2.0: a shallow embedding of
      [agentic_injection_system_v2.py] and its verified properties.

    The development follows the source file top to bottom: the dynamic
    values the program manipulates ([pyval]), the data classes [Agent] and
    [Trigger], the [MetaAgent] scorer, the [AgentRegistry] and the
    [InjectionEngine].  Numbers of type [float] are IEEE binary64 values
    (Rocq's primitive floats), integers are [Z].  Everything outside the
    program (the wall clock, the chat-completion client, the YAML parser,
    the file system) is collected in the interface [Runtime]. *)

From Stdlib Require Import ZArith List String Ascii Bool Lia Floats.
Import ListNotations.

Set Warnings "-inexact-float,-register-all".

Local Open Scope string_scope.
Local Open Scope Z_scope.

(* ===================================================================== *)
(** * Python values *)
(* ===================================================================== *)

(** The values that flow through the program are what [yaml.safe_load],
    dict literals and the arithmetic of the scorer produce.  Dictionaries
    keep their insertion order and have string keys. *)
Inductive pyval : Type :=
| VNone
| VBool (b : bool)
| VInt (z : Z)
| VFloat (f : float)
| VStr (s : string)
| VList (l : list pyval)
| VDict (d : list (string * pyval)).

Definition dict : Type := list (string * pyval).

(** The subclasses of [Exception] that the modelled code can raise.
    [ServiceError] stands for whatever the chat-completion client, the
    YAML parser or the file system raise. *)
Inductive exn : Type :=
| ValueError (msg : string)
| KeyError (key : string)
| TypeError (msg : string)
| AttributeError (msg : string)
| OverflowError (msg : string)
| ServiceError (msg : string).

(** Outcome of a computation that returns or raises. *)
Inductive outcome (A : Type) : Type :=
| Ok (a : A)
| Raise (e : exn).
Arguments Ok {A} a.
Arguments Raise {A} e.

Definition bind {A B : Type} (c : outcome A) (k : A -> outcome B) : outcome B :=
  match c with
  | Ok a => k a
  | Raise e => Raise e
  end.

Declare Scope py_scope.
Delimit Scope py_scope with py.
Notation "x <- c ;; k" := (bind c (fun x => k))
  (at level 100, c at next level, right associativity) : py_scope.
Local Open Scope py_scope.

(** [type(v).__name__] *)
Definition type_name (v : pyval) : string :=
  match v with
  | VNone => "NoneType"
  | VBool _ => "bool"
  | VInt _ => "int"
  | VFloat _ => "float"
  | VStr _ => "str"
  | VList _ => "list"
  | VDict _ => "dict"
  end.

(** [repr] of a string key, as [str(KeyError(k))] prints it. *)
Definition quote (s : string) : string := "'" ++ s ++ "'".

(** [str(e)] *)
Definition exn_str (e : exn) : string :=
  match e with
  | ValueError m => m
  | KeyError k => quote k
  | TypeError m => m
  | AttributeError m => m
  | OverflowError m => m
  | ServiceError m => m
  end.

(** ** Truthiness: [bool(v)] *)
Definition truthy (v : pyval) : bool :=
  match v with
  | VNone => false
  | VBool b => b
  | VInt z => negb (z =? 0)
  | VFloat f => negb (PrimFloat.eqb f 0%float)
  | VStr s => negb (String.eqb s "")
  | VList l => match l with [] => false | _ :: _ => true end
  | VDict d => match d with [] => false | _ :: _ => true end
  end.

(** ** Dictionaries *)

(** [d.get(k)] as an option; [d.get(k, default)] is [dict_get_default]. *)
Fixpoint dict_get (k : string) (d : dict) : option pyval :=
  match d with
  | [] => None
  | (k', v) :: tl => if String.eqb k k' then Some v else dict_get k tl
  end.

Definition dict_get_default (k : string) (default : pyval) (d : dict) : pyval :=
  match dict_get k d with
  | Some v => v
  | None => default
  end.

(** [d[k] = v]: an existing key keeps its position, a new one goes last. *)
Fixpoint dict_set (k : string) (v : pyval) (d : dict) : dict :=
  match d with
  | [] => [(k, v)]
  | (k', v') :: tl =>
      if String.eqb k k' then (k, v) :: tl else (k', v') :: dict_set k v tl
  end.

(** [{**a, **b}] *)
Definition dict_merge (a b : dict) : dict :=
  fold_left (fun acc kv => dict_set (fst kv) (snd kv) acc) b a.

(** [d[k]] on a dict *)
Definition dict_getitem (k : string) (d : dict) : outcome pyval :=
  match dict_get k d with
  | Some v => Ok v
  | None => Raise (KeyError k)
  end.

(** [v.get(k, default)] on an arbitrary value: only dicts have [get]. *)
Definition py_get (v : pyval) (k : string) (default : pyval) : outcome pyval :=
  match v with
  | VDict d => Ok (dict_get_default k default d)
  | _ => Raise (AttributeError
                  (quote (type_name v) ++ " object has no attribute 'get'"))
  end.

(** [v[k]] with a string subscript [k]. *)
Definition py_getitem (v : pyval) (k : string) : outcome pyval :=
  match v with
  | VDict d => dict_getitem k d
  | VList _ => Raise (TypeError "list indices must be integers or slices, not str")
  | VStr _ => Raise (TypeError "string indices must be integers, not 'str'")
  | _ => Raise (TypeError (quote (type_name v) ++ " object is not subscriptable"))
  end.

(** ** Strings: [str.lower], [str.strip], [in]

    A [string] is read as a sequence of code points below U+0100. *)

Definition in_range (lo hi n : nat) : bool := (Nat.leb lo n && Nat.leb n hi)%bool.

(** [c.isspace()] *)
Definition is_space (c : ascii) : bool :=
  let n := nat_of_ascii c in
  (in_range 9 13 n || in_range 28 32 n || Nat.eqb n 133 || Nat.eqb n 160)%bool.

(** [c.lower()] *)
Definition lower_char (c : ascii) : ascii :=
  let n := nat_of_ascii c in
  if (in_range 65 90 n || (in_range 192 222 n && negb (Nat.eqb n 215)))%bool
  then ascii_of_nat (n + 32)
  else c.

Fixpoint py_lower (s : string) : string :=
  match s with
  | EmptyString => EmptyString
  | String c tl => String (lower_char c) (py_lower tl)
  end.

Fixpoint lstrip (s : string) : string :=
  match s with
  | EmptyString => EmptyString
  | String c tl => if is_space c then lstrip tl else s
  end.

Fixpoint string_rev_append (s acc : string) : string :=
  match s with
  | EmptyString => acc
  | String c tl => string_rev_append tl (String c acc)
  end.

Definition string_rev (s : string) : string := string_rev_append s EmptyString.

Definition rstrip (s : string) : string := string_rev (lstrip (string_rev s)).

(** [s.strip()] *)
Definition py_strip (s : string) : string := rstrip (lstrip s).

(** [needle in hay] *)
Fixpoint contains (needle hay : string) : bool :=
  if String.prefix needle hay then true
  else match hay with
       | EmptyString => false
       | String _ tl => contains needle tl
       end.

(** [v.lower()]: only strings have it. *)
Definition py_lower_method (v : pyval) : outcome string :=
  match v with
  | VStr s => Ok (py_lower s)
  | _ => Raise (AttributeError
                  (quote (type_name v) ++ " object has no attribute 'lower'"))
  end.

(** [v.strip().lower()] *)
Definition py_strip_lower (v : pyval) : outcome string :=
  match v with
  | VStr s => Ok (py_lower (py_strip s))
  | _ => Raise (AttributeError
                  (quote (type_name v) ++ " object has no attribute 'strip'"))
  end.

(** [v == s] for a string literal [s]: values of other types differ. *)
Definition py_eq_str (v : pyval) (s : string) : bool :=
  match v with
  | VStr s' => String.eqb s' s
  | _ => false
  end.

(** [iter(v)]: lists give their items, dicts their keys, strings their
    characters; the other values are not iterable. *)
Definition py_iter (v : pyval) : outcome (list pyval) :=
  match v with
  | VList l => Ok l
  | VDict d => Ok (map (fun kv => VStr (fst kv)) d)
  | VStr s => Ok (map (fun c => VStr (String c EmptyString)) (list_ascii_of_string s))
  | _ => Raise (TypeError (quote (type_name v) ++ " object is not iterable"))
  end.

(** Is [v] usable as a dict key?  Lists and dicts are unhashable. *)
Definition hashable (v : pyval) : bool :=
  match v with
  | VList _ | VDict _ => false
  | _ => true
  end.

(* ===================================================================== *)
(** * Numbers *)
(* ===================================================================== *)

(** [float(z)] for an [int]: rounded to the nearest binary64, ties to even;
    an [int] too large for a binary64 raises [OverflowError]. *)
Definition round_Z (z : Z) : spec_float := binary_normalize prec emax z 0 false.

Definition float_of_Z (z : Z) : outcome float :=
  match round_Z z with
  | S754_infinity _ => Raise (OverflowError "int too large to convert to float")
  | sf => Ok (SF2Prim sf)
  end.

(** The numeric reading of a value: [bool] is a subclass of [int]. *)
Inductive number : Type :=
| NInt (z : Z)
| NFloat (f : float).

Definition as_number (v : pyval) : option number :=
  match v with
  | VBool b => Some (NInt (if b then 1 else 0))
  | VInt z => Some (NInt z)
  | VFloat f => Some (NFloat f)
  | _ => None
  end.

(** [z < f] between an [int] and a [float] is decided on the exact values:
    a finite [f] is [(-1)^s * m * 2^e]. *)
Definition int_lt_float (z : Z) (f : float) : bool :=
  match Prim2SF f with
  | S754_nan => false
  | S754_infinity s => negb s
  | S754_zero _ => z <? 0
  | S754_finite s m e =>
      let sm := if s then Z.neg m else Z.pos m in
      match e with
      | Z.neg p => z * 2 ^ Z.pos p <? sm
      | _ => z <? sm * 2 ^ e
      end
  end.

(** [v < c] for a float literal [c] *)
Definition py_lt_float (v : pyval) (c : float) : outcome bool :=
  match as_number v with
  | Some (NFloat f) => Ok (PrimFloat.ltb f c)
  | Some (NInt z) => Ok (int_lt_float z c)
  | None => Raise (TypeError ("'<' not supported between instances of "
                               ++ quote (type_name v) ++ " and 'float'"))
  end.

(** [v * c] for a float literal [c] *)
Definition py_mul_float (v : pyval) (c : float) : outcome float :=
  match v with
  | VStr _ | VList _ =>
      Raise (TypeError "can't multiply sequence by non-int of type 'float'")
  | _ =>
      match as_number v with
      | Some (NFloat f) => Ok (PrimFloat.mul f c)
      | Some (NInt z) => f <- float_of_Z z ;; Ok (PrimFloat.mul f c)
      | None => Raise (TypeError ("unsupported operand type(s) for *: "
                                   ++ quote (type_name v) ++ " and 'float'"))
      end
  end.

(** [min(a, b)] on floats: [b] wins only when [b < a]. *)
Definition py_min (a b : float) : float :=
  if PrimFloat.ltb b a then b else a.


(** [timedelta.total_seconds()] of a difference of [d] microseconds.  The
    quotient is the correctly rounded one as long as [d] is below 2^53
    microseconds (285 years). *)
Definition total_seconds (d : Z) : float :=
  PrimFloat.div (SF2Prim (round_Z d)) 1000000%float.

(* ===================================================================== *)
(** * The outside world *)
(* ===================================================================== *)

(** The text sent to the chat-completion service.  Each constructor is one
    f-string template of the source and carries the values interpolated
    into it, in the order they appear. *)
Inductive Prompt : Type :=
| CustomConditionPrompt (condition : string) (project_request : dict)
| CodeAnalysisPrompt (description platform complexity features : pyval)
| TestAutomationPrompt (description platform : pyval)
| DocumentationPrompt (description platform : pyval)
| DeploymentPrompt (description platform : pyval)
| GenericPrompt (agent_type description platform : pyval).

(** The keyword arguments of [openai_client.chat.completions.create]. *)
Record ChatRequest : Type := {
  req_model : pyval;
  req_messages : Prompt;
  req_max_tokens : pyval;
  req_temperature : pyval
}.

(** What the interpreter and the environment provide.  [World] is the
    state of the environment; every operation that reads or changes it
    returns the next [World].
    - [datetime_now]: [datetime.now()], in microseconds;
    - [chat_completions_create]: the call to the service followed by
      [response.choices[0].message.content]: the content, or the exception
      either step raises;
    - [yaml_safe_load]: [yaml.safe_load] on a text;
    - [read_rules_file]: [open(path, 'r')] and reading it;
    - [py_repr]: how a value that is not a string is printed in an
      f-string;
    - [builtin_sum]: [sum] over floats (its rounding depends on the
      interpreter version). *)
Class Runtime : Type := {
  World : Type;
  datetime_now : World -> Z * World;
  chat_completions_create : ChatRequest -> World -> outcome pyval * World;
  yaml_safe_load : string -> outcome pyval;
  read_rules_file : string -> World -> outcome string * World;
  py_repr : pyval -> string;
  builtin_sum : list float -> float
}.

(* ===================================================================== *)
(** * Data classes *)
(* ===================================================================== *)

(** [@dataclass class Agent].  The fields hold whatever the rules document
    gives: a dataclass does not check its annotations. *)
Record Agent : Type := {
  name : pyval;
  agent_type : pyval;
  priority : pyval;
  config : pyval;
  status : string;
  created_at : Z;
  last_executed : option Z;
  execution_count : Z
}.

(** [@dataclass class Trigger] *)
Record Trigger : Type := {
  trigger_name : pyval;
  condition : pyval;
  agents : list Agent;
  enabled : pyval
}.

(** One entry of [MetaAgent.execution_history]. *)
Record ExecutionData : Type := {
  ed_agent_name : pyval;
  ed_agent_type : pyval;
  ed_execution_time : Z;
  ed_result : dict;
  performance_score : float
}.

(** One entry of [MetaAgent.optimization_rules]. *)
Record Optimization : Type := {
  opt_type : string;
  opt_agent_name : pyval;
  opt_suggestion : string;
  opt_priority : string
}.

(** [class MetaAgent] *)
Record MetaAgent : Type := {
  execution_history : list ExecutionData;
  optimization_rules : list Optimization;
  performance_metrics : dict
}.

(** [MetaAgent.__init__] *)
Definition MetaAgent_init : MetaAgent :=
  {| execution_history := []; optimization_rules := []; performance_metrics := [] |}.

(** [str(v)] inside an f-string *)
Definition py_str `{Runtime} (v : pyval) : string :=
  match v with
  | VStr s => s
  | _ => py_repr v
  end.

(* ===================================================================== *)
(** * MetaAgent *)
(* ===================================================================== *)

Section MetaAgentModel.
Context `{RT : Runtime}.

(** [MetaAgent._calculate_performance_score] *)
Definition _calculate_performance_score (result : dict) : outcome float :=
  let score := 0%float in
  let score :=
    if truthy (dict_get_default "success" (VBool false) result)
    then PrimFloat.add score 0.5%float else score in
  score <-
    (if truthy (dict_get_default "quality_score" VNone result)
     then q <- dict_getitem "quality_score" result ;;
          m <- py_mul_float q 0.3%float ;;
          Ok (PrimFloat.add score m)
     else Ok score) ;;
  score <-
    (if truthy (dict_get_default "execution_time" VNone result)
     then execution_time <- dict_getitem "execution_time" result ;;
          lt5 <- py_lt_float execution_time 5%float ;;
          if lt5 then Ok (PrimFloat.add score 0.2%float)
          else lt10 <- py_lt_float execution_time 10%float ;;
               if lt10 then Ok (PrimFloat.add score 0.1%float) else Ok score
     else Ok score) ;;
  Ok (py_min score 1%float).

(** [history[-10:]] *)
Definition last10 {A : Type} (l : list A) : list A :=
  skipn (List.length l - 10)%nat l.

(** The average that [_update_optimization_rules] computes over the most
    recent records. *)
Definition recent_average (history : list ExecutionData) : float :=
  let recent_executions := last10 history in
  PrimFloat.div (builtin_sum (map performance_score recent_executions))
                (SF2Prim (round_Z (Z.of_nat (List.length recent_executions)))).

(** [MetaAgent._update_optimization_rules] *)
Definition _update_optimization_rules (execution_data : ExecutionData)
    (self : MetaAgent) : MetaAgent :=
  if (10 <? List.length (execution_history self))%nat then
    let avg_score := recent_average (execution_history self) in
    if PrimFloat.ltb avg_score 0.6%float then
      let optimization :=
        {| opt_type := "performance_improvement";
           opt_agent_name := ed_agent_name execution_data;
           opt_suggestion :=
             "Consider adjusting agent configuration for better performance";
           opt_priority := "medium" |} in
      {| execution_history := execution_history self;
         optimization_rules := optimization_rules self ++ [optimization];
         performance_metrics := performance_metrics self |}
    else self
  else self.

(** [MetaAgent.analyze_execution].  The clock is read while the record is
    built, before the score is computed; when the score computation
    raises, nothing is appended. *)
Definition analyze_execution (agent : Agent) (result : dict)
    (self : MetaAgent) (w : World) : outcome unit * MetaAgent * World :=
  let '(now, w) := datetime_now w in
  match _calculate_performance_score result with
  | Raise e => (Raise e, self, w)
  | Ok score =>
      let execution_data :=
        {| ed_agent_name := name agent;
           ed_agent_type := agent_type agent;
           ed_execution_time := now;
           ed_result := result;
           performance_score := score |} in
      let self :=
        {| execution_history := execution_history self ++ [execution_data];
           optimization_rules := optimization_rules self;
           performance_metrics := performance_metrics self |} in
      (Ok tt, _update_optimization_rules execution_data self, w)
  end.

(** [MetaAgent.get_optimization_suggestions] *)
Definition get_optimization_suggestions (self : MetaAgent) : list Optimization :=
  optimization_rules self.

End MetaAgentModel.

(* ===================================================================== *)
(** * AgentRegistry *)
(* ===================================================================== *)

(** One value of the [AgentRegistry.agents] table. *)
Record AgentInfo : Type := {
  description : string;
  capabilities : list string;
  default_config : dict
}.

(** [class AgentRegistry] *)
Record AgentRegistry : Type := {
  registry_agents : list (string * AgentInfo)
}.

Definition gpt4_config (max_tokens : Z) (temperature : float) : dict :=
  [("model", VStr "gpt-4"); ("max_tokens", VInt max_tokens);
   ("temperature", VFloat temperature)].

(** [AgentRegistry.__init__] *)
Definition AgentRegistry_init : AgentRegistry :=
  {| registry_agents :=
       [("code_analysis",
         {| description := "Analyzes code quality and suggests improvements";
            capabilities := ["code_review"; "refactoring_suggestions"; "bug_detection"];
            default_config := gpt4_config 2000 0.1%float |});
        ("test_automation",
         {| description := "Generates and maintains test suites";
            capabilities := ["unit_test_generation"; "integration_test_setup";
                             "test_maintenance"];
            default_config := gpt4_config 3000 0.2%float |});
        ("documentation",
         {| description := "Generates and updates project documentation";
            capabilities := ["readme_generation"; "api_docs"; "code_comments"];
            default_config := gpt4_config 2500 0.3%float |});
        ("deployment",
         {| description := "Handles deployment and infrastructure setup";
            capabilities := ["ci_cd_setup"; "infrastructure_as_code";
                             "deployment_automation"];
            default_config := gpt4_config 4000 0.1%float |})] |}.

Fixpoint assoc_get {A : Type} (k : string) (l : list (string * A)) : option A :=
  match l with
  | [] => None
  | (k', v) :: tl => if String.eqb k k' then Some v else assoc_get k tl
  end.

(** [AgentRegistry.get_agent_info]: [self.agents.get(agent_type)].  The keys
    of the table are strings, so no other hashable value is found; a list
    or a dict cannot be looked up at all. *)
Definition get_agent_info (self : AgentRegistry) (agent_type : pyval)
  : outcome (option AgentInfo) :=
  match agent_type with
  | VStr s => Ok (assoc_get s (registry_agents self))
  | VList _ | VDict _ =>
      Raise (TypeError ("unhashable type: " ++ quote (type_name agent_type)))
  | _ => Ok None
  end.

(** [AgentRegistry.list_agents] *)
Definition list_agents (self : AgentRegistry) : list string :=
  map fst (registry_agents self).

(* ===================================================================== *)
(** * InjectionEngine *)
(* ===================================================================== *)

(** [class InjectionEngine].  The chat client [self.openai_client] lives in
    the [World]. *)
Record InjectionEngine : Type := {
  meta_agent : MetaAgent;
  agent_registry : AgentRegistry;
  active_agents : list (string * Agent);
  triggers : list Trigger;
  rules_file : string
}.

(** One entry of the report's [agents_executed] list. *)
Record ExecutedAgent : Type := {
  ea_agent_name : pyval;
  ea_agent_type : pyval;
  ea_result : dict
}.

(** The dict that [process_project_request] returns; [error] is present
    only on the failure path. *)
Record Report : Type := {
  project_id : pyval;
  timestamp : Z;
  agents_executed : list ExecutedAgent;
  overall_status : string;
  meta_agent_insights : list Optimization;
  error : option string
}.

(** The dict that [get_system_status] returns. *)
Record SystemStatus : Type := {
  st_active_agents : nat;
  total_triggers : nat;
  enabled_triggers : nat;
  st_meta_agent_insights : list Optimization;
  available_agent_types : list string;
  system_health : string
}.

(** [InjectionEngine.__init__], given [os.getenv('OPENAI_API_KEY')]. *)
Definition InjectionEngine_init (api_key : option string) : outcome InjectionEngine :=
  match api_key with
  | Some (String _ _) =>
      Ok {| meta_agent := MetaAgent_init;
            agent_registry := AgentRegistry_init;
            active_agents := [];
            triggers := [];
            rules_file := "injection_rules.yaml" |}
  | _ => Raise (ValueError "OPENAI_API_KEY environment variable is required")
  end.

Definition set_triggers (self : InjectionEngine) (ts : list Trigger) : InjectionEngine :=
  {| meta_agent := meta_agent self;
     agent_registry := agent_registry self;
     active_agents := active_agents self;
     triggers := ts;
     rules_file := rules_file self |}.

Definition set_status (agent : Agent) (s : string) : Agent :=
  {| name := name agent;
     agent_type := agent_type agent;
     priority := priority agent;
     config := config agent;
     status := s;
     created_at := created_at agent;
     last_executed := last_executed agent;
     execution_count := execution_count agent |}.

(** The three assignments after a successful run: [status], [last_executed]
    and [execution_count += 1]. *)
Definition mark_completed (agent : Agent) (now : Z) : Agent :=
  {| name := name agent;
     agent_type := agent_type agent;
     priority := priority agent;
     config := config agent;
     status := "completed";
     created_at := created_at agent;
     last_executed := Some now;
     execution_count := execution_count agent + 1 |}.

Section EngineModel.
Context `{RT : Runtime}.

(** ** [load_rules] *)

(** [Agent(name=..., agent_type=..., priority=..., config=...)]:
    [__post_init__] reads the clock for [created_at]. *)
Definition Agent_new (name agent_type priority config : pyval) (w : World)
  : Agent * World :=
  let '(now, w) := datetime_now w in
  ({| name := name; agent_type := agent_type; priority := priority;
      config := config; status := "idle"; created_at := now;
      last_executed := None; execution_count := 0 |}, w).

(** The body of the inner loop: one [agent_data] entry. *)
Definition build_agent (agent_data : pyval) (w : World) : outcome Agent * World :=
  match (n <- py_getitem agent_data "name" ;;
         t <- py_getitem agent_data "type" ;;
         p <- py_get agent_data "priority" (VStr "medium") ;;
         c <- py_get agent_data "config" (VDict []) ;;
         Ok (n, t, p, c)) with
  | Raise e => (Raise e, w)
  | Ok (n, t, p, c) => let '(a, w) := Agent_new n t p c w in (Ok a, w)
  end.

(** The inner loop: [agents] is a local list, lost when an entry raises. *)
Fixpoint build_agents (items : list pyval) (agents : list Agent) (w : World)
  : outcome (list Agent) * World :=
  match items with
  | [] => (Ok agents, w)
  | agent_data :: tl =>
      match build_agent agent_data w with
      | (Raise e, w) => (Raise e, w)
      | (Ok a, w) => build_agents tl (agents ++ [a]) w
      end
  end.

(** The body of the outer loop up to the construction of the [Trigger]:
    the agents are built before [name] and [condition] are read. *)
Definition build_trigger (trigger_data : pyval) (w : World) : outcome Trigger * World :=
  match (v <- py_get trigger_data "agents" (VList []) ;; py_iter v) with
  | Raise e => (Raise e, w)
  | Ok items =>
      match build_agents items [] w with
      | (Raise e, w) => (Raise e, w)
      | (Ok ags, w) =>
          (n <- py_getitem trigger_data "name" ;;
           c <- py_getitem trigger_data "condition" ;;
           en <- py_get trigger_data "enabled" (VBool true) ;;
           Ok {| trigger_name := n; condition := c; agents := ags; enabled := en |},
           w)
      end
  end.

(** The outer loop; [self_triggers] is [self.triggers], which every
    iteration extends in place. *)
Fixpoint load_triggers_loop (items : list pyval) (self_triggers : list Trigger)
    (w : World) : outcome unit * list Trigger * World :=
  match items with
  | [] => (Ok tt, self_triggers, w)
  | trigger_data :: tl =>
      match build_trigger trigger_data w with
      | (Raise e, w) => (Raise e, self_triggers, w)
      | (Ok t, w) => load_triggers_loop tl (self_triggers ++ [t]) w
      end
  end.

(** [InjectionEngine.load_rules]; the [except] clause logs and re-raises. *)
Definition load_rules (rules_content : option string) (self : InjectionEngine)
    (w : World) : outcome unit * InjectionEngine * World :=
  let '(parsed, w) :=
    match rules_content with
    | Some (String c s) => (yaml_safe_load (String c s), w)
    | _ => let '(text, w) := read_rules_file (rules_file self) w in
           (bind text yaml_safe_load, w)
    end in
  match parsed with
  | Raise e => (Raise e, self, w)
  | Ok rules_data =>
      let self := set_triggers self [] in
      match (v <- py_get rules_data "triggers" (VList []) ;; py_iter v) with
      | Raise e => (Raise e, self, w)
      | Ok items =>
          let '(r, ts, w) := load_triggers_loop items [] w in
          (r, set_triggers self ts, w)
      end
  end.

(** ** Trigger evaluation *)

(** The request that [_evaluate_custom_condition] sends. *)
Definition custom_condition_request (condition : string) (project_request : dict)
  : ChatRequest :=
  {| req_model := VStr "gpt-4";
     req_messages := CustomConditionPrompt condition project_request;
     req_max_tokens := VInt 10;
     req_temperature := VInt 0 |}.

(** [InjectionEngine._evaluate_custom_condition]: the whole body sits in a
    [try] whose handler returns [False]. *)
Definition _evaluate_custom_condition (condition : string) (project_request : dict)
    (w : World) : bool * World :=
  let request := custom_condition_request condition project_request in
  let '(response, w) := chat_completions_create request w in
  match (content <- response ;;
         result <- py_strip_lower content ;;
         Ok (String.eqb result "true")) with
  | Ok b => (b, w)
  | Raise _ => (false, w)
  end.

(** [any('test' in f.lower() for f in items)] *)
Fixpoint any_test_file (items : list pyval) : outcome bool :=
  match items with
  | [] => Ok false
  | f :: tl =>
      match py_lower_method f with
      | Raise e => Raise e
      | Ok s => if contains "test" s then Ok true else any_test_file tl
      end
  end.

(** [InjectionEngine._evaluate_trigger].  The value returned is the one the
    matching branch computes; the caller tests its truthiness. *)
Definition _evaluate_trigger (trigger : Trigger) (project_request : dict)
    (w : World) : outcome pyval * World :=
  match py_lower_method (condition trigger) with
  | Raise e => (Raise e, w)
  | Ok condition =>
      if String.eqb condition "always" then
        (Ok (VBool true), w)
      else if String.eqb condition "file_changed" then
        (Ok (dict_get_default "files_modified" (VBool false) project_request), w)
      else if String.eqb condition "test_files_modified" then
        (items <- py_iter (dict_get_default "files_modified" (VList []) project_request) ;;
         b <- any_test_file items ;;
         Ok (VBool b), w)
      else if String.eqb condition "complexity_high" then
        (Ok (VBool (py_eq_str
                      (dict_get_default "complexity" (VStr "medium") project_request)
                      "high")), w)
      else if String.eqb condition "platform_web" then
        (Ok (VBool (py_eq_str
                      (dict_get_default "platform" (VStr "") project_request)
                      "web")), w)
      else if String.eqb condition "platform_mobile" then
        (Ok (VBool (py_eq_str
                      (dict_get_default "platform" (VStr "") project_request)
                      "mobile")), w)
      else
        let '(b, w) := _evaluate_custom_condition condition project_request w in
        (Ok (VBool b), w)
  end.

End EngineModel.

(** ** Agent execution *)

Section ExecutionModel.
Context `{RT : Runtime}.

(** The call [self.openai_client.chat.completions.create(model=config['model'],
    messages=[...], max_tokens=config['max_tokens'],
    temperature=config['temperature'])] followed by
    [response.choices[0].message.content], shared by the five
    [_execute_*_agent] methods. *)
Definition chat_with_config (prompt : Prompt) (config : dict) (w : World)
  : outcome pyval * World :=
  match (m <- dict_getitem "model" config ;;
         mt <- dict_getitem "max_tokens" config ;;
         t <- dict_getitem "temperature" config ;;
         Ok {| req_model := m; req_messages := prompt;
               req_max_tokens := mt; req_temperature := t |}) with
  | Raise e => (Raise e, w)
  | Ok request => chat_completions_create request w
  end.

Definition request_description (project_request : dict) : pyval :=
  dict_get_default "description" (VStr "No description") project_request.

Definition request_platform (project_request : dict) : pyval :=
  dict_get_default "platform" (VStr "Unknown") project_request.

(** [InjectionEngine._execute_code_analysis_agent] *)
Definition _execute_code_analysis_agent (agent : Agent) (project_request : dict)
    (config : dict) (w : World) : outcome dict * World :=
  let prompt :=
    CodeAnalysisPrompt (request_description project_request)
                       (request_platform project_request)
                       (dict_get_default "complexity" (VStr "Medium") project_request)
                       (dict_get_default "features" (VList []) project_request) in
  match chat_with_config prompt config w with
  | (Raise e, w) => (Raise e, w)
  | (Ok content, w) =>
      (Ok [("analysis", content);
           ("quality_score", VFloat 0.85%float);
           ("recommendations_count", VInt 5)], w)
  end.

(** [InjectionEngine._execute_test_automation_agent] *)
Definition _execute_test_automation_agent (agent : Agent) (project_request : dict)
    (config : dict) (w : World) : outcome dict * World :=
  let prompt :=
    TestAutomationPrompt (request_description project_request)
                         (request_platform project_request) in
  match chat_with_config prompt config w with
  | (Raise e, w) => (Raise e, w)
  | (Ok content, w) =>
      (Ok [("test_strategy", content);
           ("frameworks_recommended",
            VList [VStr "Jest"; VStr "Cypress"; VStr "Playwright"]);
           ("coverage_target", VStr "90%")], w)
  end.

(** [InjectionEngine._execute_documentation_agent] *)
Definition _execute_documentation_agent (agent : Agent) (project_request : dict)
    (config : dict) (w : World) : outcome dict * World :=
  let prompt :=
    DocumentationPrompt (request_description project_request)
                        (request_platform project_request) in
  match chat_with_config prompt config w with
  | (Raise e, w) => (Raise e, w)
  | (Ok content, w) =>
      (Ok [("documentation", content);
           ("sections_created",
            VList [VStr "README"; VStr "API Docs"; VStr "Setup Guide";
                   VStr "Contributing"]);
           ("completeness_score", VFloat 0.9%float)], w)
  end.

(** [InjectionEngine._execute_deployment_agent] *)
Definition _execute_deployment_agent (agent : Agent) (project_request : dict)
    (config : dict) (w : World) : outcome dict * World :=
  let prompt :=
    DeploymentPrompt (request_description project_request)
                     (request_platform project_request) in
  match chat_with_config prompt config w with
  | (Raise e, w) => (Raise e, w)
  | (Ok content, w) =>
      (Ok [("deployment_strategy", content);
           ("infrastructure_type", VStr "Cloud-native");
           ("deployment_method", VStr "CI/CD Pipeline")], w)
  end.

(** [InjectionEngine._execute_generic_agent] *)
Definition _execute_generic_agent (agent : Agent) (project_request : dict)
    (config : dict) (w : World) : outcome dict * World :=
  let prompt :=
    GenericPrompt (agent_type agent)
                  (request_description project_request)
                  (request_platform project_request) in
  match chat_with_config prompt config w with
  | (Raise e, w) => (Raise e, w)
  | (Ok content, w) =>
      (Ok [("output", content); ("agent_type", agent_type agent)], w)
  end.

(** [{**agent_info['default_config'], **agent.config}] *)
Definition merge_config (info : AgentInfo) (agent_config : pyval) : outcome dict :=
  match agent_config with
  | VDict c => Ok (dict_merge (default_config info) c)
  | _ => Raise (TypeError (quote (type_name agent_config) ++ " object is not a mapping"))
  end.

(** The statements of the [try] block of [_execute_agent] up to and
    including the call of the type-specific method. *)
Definition execute_dispatch (self : InjectionEngine) (agent : Agent)
    (project_request : dict) (w : World) : outcome dict * World :=
  match (agent_info <- get_agent_info (agent_registry self) (agent_type agent) ;;
         match agent_info with
         | None => Raise (ValueError ("Unknown agent type: " ++ py_str (agent_type agent)))
         | Some info => merge_config info (config agent)
         end) with
  | Raise e => (Raise e, w)
  | Ok config =>
      if py_eq_str (agent_type agent) "code_analysis" then
        _execute_code_analysis_agent agent project_request config w
      else if py_eq_str (agent_type agent) "test_automation" then
        _execute_test_automation_agent agent project_request config w
      else if py_eq_str (agent_type agent) "documentation" then
        _execute_documentation_agent agent project_request config w
      else if py_eq_str (agent_type agent) "deployment" then
        _execute_deployment_agent agent project_request config w
      else
        _execute_generic_agent agent project_request config w
  end.

(** [InjectionEngine._execute_agent].  It returns the agent object as the
    call leaves it, the result dict and the next world; no exception
    leaves it. *)
Definition _execute_agent (self : InjectionEngine) (agent : Agent)
    (project_request : dict) (w : World) : Agent * dict * World :=
  let '(start_time, w) := datetime_now w in
  let agent := set_status agent "executing" in
  match execute_dispatch self agent project_request w with
  | (Ok result, w) =>
      let '(now, w) := datetime_now w in
      let agent := mark_completed agent now in
      let '(now, w) := datetime_now w in
      let execution_time := total_seconds (now - start_time) in
      let result := dict_set "execution_time" (VFloat execution_time) result in
      let result := dict_set "success" (VBool true) result in
      (agent, result, w)
  | (Raise e, w) =>
      let agent := set_status agent "error" in
      let '(now, w) := datetime_now w in
      (agent,
       [("success", VBool false);
        ("error", VStr (exn_str e));
        ("execution_time", VFloat (total_seconds (now - start_time)))],
       w)
  end.

(** ** [process_project_request] *)

(** What the two nested loops of [process_project_request] change: the
    MetaAgent, the report's [agents_executed] list and the world. *)
Record LoopState : Type := {
  ls_meta : MetaAgent;
  ls_executed : list ExecutedAgent;
  ls_world : World
}.

(** [for agent in trigger.agents: ...].  The agents are objects mutated in
    place, so the list comes back with every agent that was executed in
    its new state, also when a later step raises. *)
Fixpoint run_agents (self : InjectionEngine) (ags : list Agent)
    (project_request : dict) (st : LoopState)
  : outcome unit * list Agent * LoopState :=
  match ags with
  | [] => (Ok tt, [], st)
  | agent :: tl =>
      let '(agent, agent_result, w) :=
        _execute_agent self agent project_request (ls_world st) in
      let executed :=
        (ls_executed st ++ [{| ea_agent_name := name agent;
                               ea_agent_type := agent_type agent;
                               ea_result := agent_result |}])%list in
      match analyze_execution agent agent_result (ls_meta st) w with
      | (Raise e, m, w) =>
          (Raise e, agent :: tl,
           {| ls_meta := m; ls_executed := executed; ls_world := w |})
      | (Ok _, m, w) =>
          let '(r, tl, st) :=
            run_agents self tl project_request
                       {| ls_meta := m; ls_executed := executed; ls_world := w |} in
          (r, agent :: tl, st)
      end
  end.

Definition set_agents (t : Trigger) (ags : list Agent) : Trigger :=
  {| trigger_name := trigger_name t; condition := condition t;
     agents := ags; enabled := enabled t |}.

(** [for trigger in self.triggers: ...] *)
Fixpoint run_triggers (self : InjectionEngine) (ts : list Trigger)
    (project_request : dict) (st : LoopState)
  : outcome unit * list Trigger * LoopState :=
  match ts with
  | [] => (Ok tt, [], st)
  | trigger :: tl =>
      if negb (truthy (enabled trigger)) then
        let '(r, tl, st) := run_triggers self tl project_request st in
        (r, trigger :: tl, st)
      else
        match _evaluate_trigger trigger project_request (ls_world st) with
        | (Raise e, w) =>
            (Raise e, trigger :: tl,
             {| ls_meta := ls_meta st; ls_executed := ls_executed st; ls_world := w |})
        | (Ok fired, w) =>
            let st := {| ls_meta := ls_meta st; ls_executed := ls_executed st;
                         ls_world := w |} in
            if truthy fired then
              match run_agents self (agents trigger) project_request st with
              | (Raise e, ags, st) => (Raise e, set_agents trigger ags :: tl, st)
              | (Ok _, ags, st) =>
                  let '(r, tl, st) := run_triggers self tl project_request st in
                  (r, set_agents trigger ags :: tl, st)
              end
            else
              let '(r, tl, st) := run_triggers self tl project_request st in
              (r, trigger :: tl, st)
        end
  end.

(** [InjectionEngine.process_project_request].  [meta_agent_insights] is
    assigned inside the [try], after the loop; the handler changes only
    [overall_status] and [error]. *)
Definition process_project_request (self : InjectionEngine) (project_request : dict)
    (w : World) : Report * InjectionEngine * World :=
  let '(now, w) := datetime_now w in
  let '(r, ts, st) :=
    run_triggers self (triggers self) project_request
                 {| ls_meta := meta_agent self; ls_executed := []; ls_world := w |} in
  let self' :=
    {| meta_agent := ls_meta st;
       agent_registry := agent_registry self;
       active_agents := active_agents self;
       triggers := ts;
       rules_file := rules_file self |} in
  let results (status : string) (insights : list Optimization) (err : option string) :=
    {| project_id := dict_get_default "id" (VStr "unknown") project_request;
       timestamp := now;
       agents_executed := ls_executed st;
       overall_status := status;
       meta_agent_insights := insights;
       error := err |} in
  match r with
  | Ok _ =>
      (results "success" (get_optimization_suggestions (ls_meta st)) None,
       self', ls_world st)
  | Raise e =>
      (results "error" [] (Some (exn_str e)), self', ls_world st)
  end.

(** [InjectionEngine.get_system_status] *)
Definition get_system_status (self : InjectionEngine) : SystemStatus :=
  {| st_active_agents := List.length (active_agents self);
     total_triggers := List.length (triggers self);
     enabled_triggers :=
       List.length (filter (fun t => truthy (enabled t)) (triggers self));
     st_meta_agent_insights := get_optimization_suggestions (meta_agent self);
     available_agent_types := list_agents (agent_registry self);
     system_health := "healthy" |}.

End ExecutionModel.

(* ===================================================================== *)
(** * The scoring rule as the specification words it *)
(* ===================================================================== *)

(** The scoring rule of the specification: 0.5 when [success] is true,
    plus 0.3 times [quality_score] when that field is present, plus 0.2
    when [execution_time] is below 5.0, else 0.1 when it is below 10.0,
    else nothing; the total is capped at 1.0.  It differs from
    [_calculate_performance_score] only in testing the presence of the two
    fields where the code tests their truthiness. *)
Definition specified_performance_score (result : dict) : outcome float :=
  let score := 0%float in
  let score :=
    if truthy (dict_get_default "success" (VBool false) result)
    then PrimFloat.add score 0.5%float else score in
  score <-
    match dict_get "quality_score" result with
    | Some q => m <- py_mul_float q 0.3%float ;; Ok (PrimFloat.add score m)
    | None => Ok score
    end ;;
  score <-
    match dict_get "execution_time" result with
    | Some execution_time =>
        lt5 <- py_lt_float execution_time 5%float ;;
        if lt5 then Ok (PrimFloat.add score 0.2%float)
        else lt10 <- py_lt_float execution_time 10%float ;;
             if lt10 then Ok (PrimFloat.add score 0.1%float) else Ok score
    | None => Ok score
    end ;;
  Ok (py_min score 1%float).

(** [0 <= v] for a value that is a number. *)
Definition nonneg_number (v : pyval) : bool :=
  match as_number v with
  | Some (NFloat f) => PrimFloat.leb 0%float f
  | Some (NInt z) => 0 <=? z
  | None => false
  end.

(** The binary64 values that compare [>= 0]: both zeros, the positive
    finite numbers and plus infinity. *)
Definition sf_nonneg (x : spec_float) : bool :=
  match x with
  | S754_zero _ => true
  | S754_infinity s => negb s
  | S754_nan => false
  | S754_finite s _ _ => negb s
  end.

(** [0.0 <= x <= 1.0] *)
Definition in_unit_interval (x : float) : bool :=
  (PrimFloat.leb 0%float x && PrimFloat.leb x 1%float)%bool.

(** The suggestion that [_update_optimization_rules] appends for an agent
    name. *)
Definition suggestion_for (agent_name : pyval) : Optimization :=
  {| opt_type := "performance_improvement";
     opt_agent_name := agent_name;
     opt_suggestion := "Consider adjusting agent configuration for better performance";
     opt_priority := "medium" |}.

Section Recording.
Context `{RT : Runtime}.

(** A sequence of calls of [analyze_execution], stopping at the first one
    that raises. *)
Fixpoint record_all (calls : list (Agent * dict)) (self : MetaAgent) (w : World)
  : outcome unit * MetaAgent * World :=
  match calls with
  | [] => (Ok tt, self, w)
  | (agent, result) :: tl =>
      match analyze_execution agent result self w with
      | (Raise e, self, w) => (Raise e, self, w)
      | (Ok _, self, w) => record_all tl self w
      end
  end.

(** Every call of the sequence returns, and whenever it leaves more than
    ten records in the history the average of the last ten is below 0.6. *)
Fixpoint stays_low (calls : list (Agent * dict)) (self : MetaAgent) (w : World) : bool :=
  match calls with
  | [] => true
  | (agent, result) :: tl =>
      match analyze_execution agent result self w with
      | (Raise _, _, _) => false
      | (Ok _, self, w) =>
          ((if (10 <? List.length (execution_history self))%nat
            then PrimFloat.ltb (recent_average (execution_history self)) 0.6%float
            else true)
           && stays_low tl self w)%bool
      end
  end.

End Recording.

(* ===================================================================== *)
(** * Rules documents *)
(* ===================================================================== *)

Definition has_key (k : string) (d : dict) : bool :=
  match dict_get k d with Some _ => true | None => false end.

(** An agent entry with both required fields. *)
Definition agent_entry_ok (agent_data : pyval) : bool :=
  match agent_data with
  | VDict d => (has_key "name" d && has_key "type" d)%bool
  | _ => false
  end.

(** A list of agent entries, all mappings up to and including one that
    lacks [name] or [type]. *)
Fixpoint agents_missing_field (items : list pyval) : bool :=
  match items with
  | VDict d :: tl =>
      if (has_key "name" d && has_key "type" d)%bool
      then agents_missing_field tl else true
  | _ => false
  end.

(** The [agents] entry of a trigger mapping: absent, or a list. *)
Definition agent_items (d : dict) : option (list pyval) :=
  match dict_get "agents" d with
  | None => Some []
  | Some (VList l) => Some l
  | Some _ => None
  end.

(** A trigger entry from which [load_rules] builds a [Trigger]. *)
Definition trigger_entry_ok (trigger_data : pyval) : bool :=
  match trigger_data with
  | VDict d =>
      match agent_items d with
      | Some l => (forallb agent_entry_ok l && has_key "name" d && has_key "condition" d)%bool
      | None => false
      end
  | _ => false
  end.

(** A trigger entry that is a mapping but lacks a required field: one of
    its agents lacks [name] or [type], or the trigger itself lacks [name]
    or [condition]. *)
Definition trigger_entry_missing_field (trigger_data : pyval) : bool :=
  match trigger_data with
  | VDict d =>
      match agent_items d with
      | Some l =>
          (agents_missing_field l
           || (forallb agent_entry_ok l
               && negb (has_key "name" d && has_key "condition" d)))%bool
      | None => false
      end
  | _ => false
  end.

(** The four required field names. *)
Definition required_field (k : string) : bool :=
  (String.eqb k "name" || String.eqb k "type" || String.eqb k "condition")%bool.

(** The conditions that [_evaluate_trigger] decides by itself. *)
Definition fixed_vocabulary : list string :=
  ["always"; "file_changed"; "test_files_modified"; "complexity_high";
   "platform_web"; "platform_mobile"].

Definition in_fixed_vocabulary (condition : string) : bool :=
  existsb (String.eqb condition) fixed_vocabulary.

(* ===================================================================== *)
(** * A scripted runtime and sample data *)
(* ===================================================================== *)

(** A world whose clock advances by [tick] microseconds at every reading
    and whose chat service answers with the prepared [replies], one per
    call, and fails once they are used up. *)
Record ScriptedWorld : Type := {
  clock : Z;
  tick : Z;
  replies : list (outcome pyval)
}.

Definition scripted_now (w : ScriptedWorld) : Z * ScriptedWorld :=
  (clock w, {| clock := clock w + tick w; tick := tick w; replies := replies w |}).

Definition scripted_chat (request : ChatRequest) (w : ScriptedWorld)
  : outcome pyval * ScriptedWorld :=
  match replies w with
  | [] => (Raise (ServiceError "Connection error."), w)
  | r :: tl => (r, {| clock := clock w; tick := tick w; replies := tl |})
  end.

(** A rules document with a well-formed trigger followed by one that has
    no [condition]. *)
Definition rules_missing_condition : pyval :=
  VDict [("triggers",
          VList [VDict [("name", VStr "on_change");
                        ("condition", VStr "file_changed");
                        ("agents",
                         VList [VDict [("name", VStr "reviewer");
                                       ("type", VStr "code_analysis")]])];
                 VDict [("name", VStr "broken")]])].

(** The parser of the scripted runtime knows one text. *)
Definition scripted_yaml (text : string) : outcome pyval :=
  if String.eqb text "rules: missing condition" then Ok rules_missing_condition
  else Raise (ServiceError "yaml.YAMLError").

Definition scripted_read (path : string) (w : ScriptedWorld)
  : outcome string * ScriptedWorld :=
  (Raise (ServiceError "FileNotFoundError"), w).

(** [sum] as a left fold from the [int] 0. *)
Definition fold_sum (l : list float) : float :=
  fold_left PrimFloat.add l 0%float.

#[global] Instance scripted_runtime : Runtime := {|
  World := ScriptedWorld;
  datetime_now := scripted_now;
  chat_completions_create := scripted_chat;
  yaml_safe_load := scripted_yaml;
  read_rules_file := scripted_read;
  py_repr := fun _ => "<object>";
  builtin_sum := fold_sum
|}.

(** A clock that starts at 0 and advances by 1.5 seconds, and a frozen one. *)
Definition ticking_world (rs : list (outcome pyval)) : @World scripted_runtime :=
  {| clock := 0; tick := 1500000; replies := rs |}.

Definition frozen_world (rs : list (outcome pyval)) : @World scripted_runtime :=
  {| clock := 0; tick := 0; replies := rs |}.

Definition sample_agent (n t : string) : Agent :=
  {| name := VStr n; agent_type := VStr t; priority := VStr "medium";
     config := VDict []; status := "idle"; created_at := 0;
     last_executed := None; execution_count := 0 |}.

Definition sample_engine (ts : list Trigger) (m : MetaAgent) : InjectionEngine :=
  {| meta_agent := m; agent_registry := AgentRegistry_init; active_agents := [];
     triggers := ts; rules_file := "injection_rules.yaml" |}.

(** The two results of the specification's examples. *)
Definition result_best : dict :=
  [("success", VBool true); ("quality_score", VFloat 1%float);
   ("execution_time", VFloat 2%float)].

Definition result_failed : dict := [("success", VBool false)].

(** A successful result that took no measurable time. *)
Definition result_zero_time : dict :=
  [("success", VBool true); ("execution_time", VFloat 0%float)].

Definition result_negative_quality : dict :=
  [("quality_score", VFloat (-1)%float)].

Definition result_high_quality : dict :=
  [("success", VBool true); ("quality_score", VFloat 7.5%float)].

(** Nineteen failed executions of one agent. *)
Definition nineteen_failures : list (Agent * dict) :=
  repeat (sample_agent "reviewer" "code_analysis", result_failed) 19.

Definition reviewer : Agent := sample_agent "reviewer" "code_analysis".

(** An agent whose type the registry does not have. *)
Definition analyst : Agent := sample_agent "analyst" "data_science".

Definition sample_trigger (n : string) (c : pyval) (ags : list Agent) : Trigger :=
  {| trigger_name := VStr n; condition := c; agents := ags; enabled := VBool true |}.

(** An engine that has loaded one trigger. *)
Definition engine_with_nightly : InjectionEngine :=
  sample_engine [sample_trigger "nightly" (VStr "always") []] MetaAgent_init.

(** The two trigger entries of [rules_missing_condition]. *)
Definition entry_on_change : pyval :=
  VDict [("name", VStr "on_change");
         ("condition", VStr "file_changed");
         ("agents",
          VList [VDict [("name", VStr "reviewer"); ("type", VStr "code_analysis")]])].

Definition entry_broken : pyval := VDict [("name", VStr "broken")].

Definition request_with_files : dict :=
  [("id", VStr "demo-project-001");
   ("files_modified", VList [VStr "src/app.py"])].

(** A MetaAgent that already holds two suggestions. *)
Definition seasoned_meta : MetaAgent :=
  {| execution_history := [];
     optimization_rules := [suggestion_for (VStr "reviewer");
                            suggestion_for (VStr "tester")];
     performance_metrics := [] |}.

(** An engine whose second trigger has a number for a condition, as a
    rules document with [condition: 5] gives. *)
Definition engine_with_bad_condition : InjectionEngine :=
  sample_engine [sample_trigger "first" (VStr "always") [analyst];
                 sample_trigger "second" (VInt 5) [reviewer]]
                seasoned_meta.

(* ===================================================================== *)
(** * The rolling average and the malformed entry, as the claims word them *)
(* ===================================================================== *)

(** [score] is the performance score of the result of [call]. *)
Definition scored (call : Agent * dict) (score : float) : Prop :=
  _calculate_performance_score (snd call) = Ok score.

(** Of a sequence of scores, the ten that end with the [k]-th: the scores
    of records [k-9] to [k]. *)
Definition scores_window (scores : list float) (k : nat) : list float :=
  firstn 10 (skipn (k - 10) scores).

Section RollingAverage.
Context `{RT : Runtime}.

(** The rolling average after the [k]-th record: the sum of the last ten
    scores divided by ten. *)
Definition window_average (scores : list float) (k : nat) : float :=
  PrimFloat.div (builtin_sum (scores_window scores k)) 10%float.

(** The scores keep the rolling average of the last ten below 0.6: it is
    below 0.6 after the 11th record and after every later one. *)
Definition rolling_average_below (scores : list float) : bool :=
  forallb (fun k => PrimFloat.ltb (window_average scores k) 0.6%float)
          (seq 11 (List.length scores - 10)).

(** Where the document that [load_rules] works on comes from: a text that
    is not empty is parsed; without a text, or with an empty one, the
    rules file is read and its text is parsed. *)
Inductive document_of
  : option string -> InjectionEngine -> World -> pyval -> World -> Prop :=
| from_text (c : ascii) (text : string) (self : InjectionEngine) (w : World)
    (doc : pyval) :
    yaml_safe_load (String c text) = Ok doc ->
    document_of (Some (String c text)) self w doc w
| from_file (rules_content : option string) (self : InjectionEngine) (w w0 : World)
    (text : string) (doc : pyval) :
    rules_content = None \/ rules_content = Some "" ->
    read_rules_file (rules_file self) w = (Ok text, w0) ->
    yaml_safe_load text = Ok doc ->
    document_of rules_content self w doc w0.

End RollingAverage.

(** The required field that an agent mapping lacks: [name] is looked up
    before [type]. *)
Definition agent_first_missing (d : dict) : option string :=
  if has_key "name" d
  then (if has_key "type" d then None else Some "type")
  else Some "name".

(** The first required field missing in a list of agent mappings. *)
Fixpoint agents_first_missing (items : list pyval) : option string :=
  match items with
  | VDict d :: tl =>
      match agent_first_missing d with
      | Some k => Some k
      | None => agents_first_missing tl
      end
  | _ => None
  end.

(** The required field whose absence a trigger mapping is first found to
    have: that of its first incomplete agent, else the trigger's [name],
    else its [condition]. *)
Definition trigger_first_missing (trigger_data : pyval) : option string :=
  match trigger_data with
  | VDict d =>
      match agent_items d with
      | Some l =>
          match agents_first_missing l with
          | Some k => Some k
          | None =>
              if forallb agent_entry_ok l
              then (if has_key "name" d
                    then (if has_key "condition" d then None else Some "condition")
                    else Some "name")
              else None
          end
      | None => None
      end
  | _ => None
  end.

(** A result that scores 0.5 + 0.3 * 0.3 = 0.59. *)
Definition result_modest : dict :=
  [("success", VBool true); ("quality_score", VFloat 0.3%float)].

Definition score_modest : float :=
  PrimFloat.add (PrimFloat.add 0 0.5) (PrimFloat.mul 0.3 0.3).

(** One execution that scores 1.0 followed by nine that score 0.59. *)
Definition one_best_nine_modest : list (Agent * dict) :=
  (sample_agent "reviewer" "code_analysis", result_best)
  :: repeat (sample_agent "reviewer" "code_analysis", result_modest) 9.

(** The scores of those ten and of one more modest execution. *)
Definition scores_best_then_modest : list float :=
  1%float :: repeat score_modest 10.

(** A runtime whose rules file holds the text that parses to
    [rules_missing_condition]. *)
Definition broken_file_read (path : string) (w : ScriptedWorld)
  : outcome string * ScriptedWorld :=
  (Ok "rules: missing condition", w).

Definition broken_file_runtime : Runtime := {|
  World := ScriptedWorld;
  datetime_now := scripted_now;
  chat_completions_create := scripted_chat;
  yaml_safe_load := scripted_yaml;
  read_rules_file := broken_file_read;
  py_repr := fun _ => "<object>";
  builtin_sum := fold_sum
|}.

Definition broken_file_world : @World broken_file_runtime :=
  {| clock := 0; tick := 1500000; replies := [] |}.

(* ===================================================================== *)
(** * The entry point and further vocabulary for the properties *)
(* ===================================================================== *)

(** The request that [main] processes. *)
Definition demo_project_request : dict :=
  [("id", VStr "demo-project-001");
   ("description", VStr "A modern web application for task management");
   ("platform", VStr "web");
   ("complexity", VStr "medium");
   ("features", VList [VStr "user_authentication"; VStr "task_management";
                       VStr "real_time_updates"]);
   ("files_modified", VList [VStr "src/components/TaskList.js";
                             VStr "src/api/tasks.js"])].

(** How [main] ends, with the lines it has printed by then: it returns,
    or it logs an exception and calls [sys.exit] with a status. *)
Inductive MainOutcome : Type :=
| Returned (printed : list string)
| Exited (code : Z) (e : exn) (printed : list string).

(** The line [\nSystem Status:] *)
Definition status_heading : string :=
  String (ascii_of_nat 10) "System Status:".

Section MainModel.
Context `{RT : Runtime}.

(** [json.dumps(result, indent=2, default=str)] and
    [json.dumps(status, indent=2)]: the text, or the exception raised for
    a value that cannot be serialised (the second call has no [default],
    so a date that a rules document put into an agent name is one). *)
Variable json_dumps_result : Report -> outcome string.
Variable json_dumps_status : SystemStatus -> outcome string.

(** [main], given [os.getenv('OPENAI_API_KEY')].  Every exception of the
    [try] block ends in [sys.exit(1)]; the report is printed before the
    status is serialised. *)
Definition main (api_key : option string) (w : World) : MainOutcome * World :=
  match InjectionEngine_init api_key with
  | Raise e => (Exited 1 e [], w)
  | Ok engine =>
      match load_rules None engine w with
      | (Raise e, _, w) => (Exited 1 e [], w)
      | (Ok _, engine, w) =>
          let '(result, engine, w) :=
            process_project_request engine demo_project_request w in
          match json_dumps_result result with
          | Raise e => (Exited 1 e [], w)
          | Ok result_text =>
              let status := get_system_status engine in
              match json_dumps_status status with
              | Raise e => (Exited 1 e [result_text; status_heading], w)
              | Ok status_text =>
                  (Returned [result_text; status_heading; status_text], w)
              end
          end
      end
  end.

End MainModel.


(** An agent as [load_rules] creates it: idle and never executed. *)
Definition fresh_agent (a : Agent) : Prop :=
  status a = "idle" /\ execution_count a = 0 /\ last_executed a = None.

(** Two agent objects that differ at most in their run state. *)
Definition same_agent (a a' : Agent) : Prop :=
  name a' = name a /\ agent_type a' = agent_type a /\ priority a' = priority a /\
  config a' = config a /\ created_at a' = created_at a.

(** Two triggers that differ at most in the run state of their agents. *)
Definition same_trigger (t t' : Trigger) : Prop :=
  trigger_name t' = trigger_name t /\ condition t' = condition t /\
  enabled t' = enabled t /\ Forall2 same_agent (agents t) (agents t').

(** The payloads of the four typed [_execute_*_agent] methods, for the
    text [content] that the service returned. *)
Definition typed_payload (payload : dict) : Prop :=
  exists content,
    payload = [("analysis", content); ("quality_score", VFloat 0.85%float);
               ("recommendations_count", VInt 5)] \/
    payload = [("test_strategy", content);
               ("frameworks_recommended",
                VList [VStr "Jest"; VStr "Cypress"; VStr "Playwright"]);
               ("coverage_target", VStr "90%")] \/
    payload = [("documentation", content);
               ("sections_created",
                VList [VStr "README"; VStr "API Docs"; VStr "Setup Guide";
                       VStr "Contributing"]);
               ("completeness_score", VFloat 0.9%float)] \/
    payload = [("deployment_strategy", content);
               ("infrastructure_type", VStr "Cloud-native");
               ("deployment_method", VStr "CI/CD Pipeline")].

(** The condition of a trigger is a string. *)
Definition condition_is_string (t : Trigger) : bool :=
  match condition t with VStr _ => true | _ => false end.

Definition is_string (v : pyval) : bool :=
  match v with VStr _ => true | _ => false end.

(** [files_modified] is absent from the request or a list of strings. *)
Definition files_are_strings (project_request : dict) : bool :=
  match dict_get "files_modified" project_request with
  | None => true
  | Some (VList l) => forallb is_string l
  | Some _ => false
  end.

(** The value of field [k] of a mapping entry of a rules document. *)
Definition entry_field (k : string) (entry : pyval) : option pyval :=
  match entry with
  | VDict d => dict_get k d
  | _ => None
  end.

(** ** Further sample data *)

(** A rules document with two well-formed triggers. *)
Definition rules_two_triggers : pyval :=
  VDict [("triggers",
          VList [VDict [("name", VStr "on_change");
                        ("condition", VStr "file_changed");
                        ("agents",
                         VList [VDict [("name", VStr "reviewer");
                                       ("type", VStr "code_analysis")];
                                VDict [("name", VStr "writer");
                                       ("type", VStr "documentation");
                                       ("priority", VStr "low")]])];
                 VDict [("name", VStr "web_only");
                        ("condition", VStr "platform_web");
                        ("enabled", VBool false)]])].

(** A parser that knows two texts, the second one an empty document. *)
Definition filed_yaml (text : string) : outcome pyval :=
  if String.eqb text "rules: two triggers" then Ok rules_two_triggers
  else if String.eqb text "# nothing yet" then Ok VNone
  else Raise (ServiceError "yaml.YAMLError").

(** A file system that has the rules file. *)
Definition filed_read (path : string) (w : ScriptedWorld)
  : outcome string * ScriptedWorld :=
  if String.eqb path "injection_rules.yaml" then (Ok "rules: two triggers", w)
  else (Raise (ServiceError "FileNotFoundError"), w).

(** The scripted runtime with that parser and that file system. *)
Definition filed_runtime : Runtime := {|
  World := ScriptedWorld;
  datetime_now := scripted_now;
  chat_completions_create := scripted_chat;
  yaml_safe_load := filed_yaml;
  read_rules_file := filed_read;
  py_repr := fun _ => "<object>";
  builtin_sum := fold_sum
|}.

Definition filed_world (rs : list (outcome pyval)) : @World filed_runtime :=
  {| clock := 0; tick := 1500000; replies := rs |}.

(** The result of a documentation run, and one with the same three scored
    fields and nothing else. *)
Definition result_documentation : dict :=
  [("documentation", VStr "# Project");
   ("sections_created", VList [VStr "README"; VStr "API Docs"]);
   ("completeness_score", VFloat 0.9%float);
   ("execution_time", VFloat 3%float);
   ("success", VBool true)].

Definition result_bare : dict :=
  [("success", VBool true); ("execution_time", VFloat 3%float)].


(** An engine with one enabled trigger of two agents, one of them of an
    unknown type, and a disabled trigger. *)
Definition engine_mixed : InjectionEngine :=
  sample_engine
    [sample_trigger "every time" (VStr "Always") [analyst; reviewer];
     {| trigger_name := VStr "off"; condition := VInt 5; agents := [reviewer];
        enabled := VBool false |}]
    seasoned_meta.

(** An engine whose triggers are all disabled. *)
Definition engine_all_disabled : InjectionEngine :=
  sample_engine
    [{| trigger_name := VStr "off"; condition := VStr "always"; agents := [reviewer];
        enabled := VBool false |};
     {| trigger_name := VStr "unset"; condition := VStr "always"; agents := [analyst];
        enabled := VNone |}]
    seasoned_meta.

(* ===================================================================== *)
(** * Facts about binary64 arithmetic *)
(* ===================================================================== *)

Module FloatFacts.

(** ** Rounding keeps a non-negative mantissa non-negative *)

Section Rounding.
Variables prec emax : Z.

Lemma shr_1_nonneg (mrs : shr_record) :
  0 <= shr_m mrs -> 0 <= shr_m (shr_1 mrs).
Proof.
  destruct mrs as [m r s].
  destruct m as [|[p|p|]|[p|p|]]; simpl; lia.
Qed.

Lemma iter_shr_1_nonneg (p : positive) :
  forall mrs, 0 <= shr_m mrs -> 0 <= shr_m (iter_pos shr_1 p mrs).
Proof.
  induction p as [p IH|p IH|]; intros mrs H; simpl.
  - apply IH, IH, shr_1_nonneg, H.
  - apply IH, IH, H.
  - apply shr_1_nonneg, H.
Qed.

Lemma shr_record_of_loc_m (m : Z) (l : location) :
  shr_m (shr_record_of_loc m l) = m.
Proof. destruct l as [|[]]; reflexivity. Qed.

Lemma shr_fexp_nonneg (m e : Z) (l : location) :
  0 <= m -> 0 <= shr_m (fst (shr_fexp prec emax m e l)).
Proof.
  intros H. unfold shr_fexp, shr.
  destruct (fexp prec emax (Zdigits2 m + e) - e) as [|p|p]; simpl;
    try (rewrite shr_record_of_loc_m; exact H).
  apply iter_shr_1_nonneg. rewrite shr_record_of_loc_m. exact H.
Qed.

Lemma round_nearest_even_nonneg (m : Z) (l : location) :
  0 <= m -> 0 <= round_nearest_even m l.
Proof.
  intros H. destruct l as [|[]]; simpl; try lia.
  destruct (Z.even m); lia.
Qed.

Lemma binary_round_aux_nonneg (m e : Z) (l : location) :
  0 <= m -> sf_nonneg (binary_round_aux prec emax false m e l) = true.
Proof.
  intros H. unfold binary_round_aux.
  pose proof (shr_fexp_nonneg m e l H) as H1.
  destruct (shr_fexp prec emax m e l) as [mrs' e']. simpl in H1.
  pose proof (shr_fexp_nonneg _ e' loc_Exact
                (round_nearest_even_nonneg _ (loc_of_shr_record mrs') H1)) as H2.
  destruct (shr_fexp prec emax _ e' loc_Exact) as [mrs'' e'']. simpl in H2.
  destruct (shr_m mrs'') as [|p|p]; try reflexivity; try lia.
  destruct (e'' <=? emax - prec); reflexivity.
Qed.

Lemma binary_round_nonneg (m : positive) (e : Z) :
  sf_nonneg (binary_round prec emax false m e) = true.
Proof.
  unfold binary_round.
  destruct (shl_align m e _) as [mz ez].
  apply binary_round_aux_nonneg. lia.
Qed.

Lemma binary_normalize_nonneg (m e : Z) :
  0 <= m -> sf_nonneg (binary_normalize prec emax m e false) = true.
Proof.
  intros H. destruct m as [|p|p]; simpl; try reflexivity; try lia.
  apply binary_round_nonneg.
Qed.

(** The sum of two values that are [>= 0] is [>= 0]. *)
Lemma SFadd_nonneg (x y : spec_float) :
  sf_nonneg x = true -> sf_nonneg y = true ->
  sf_nonneg (SFadd prec emax x y) = true.
Proof.
  destruct x as [sx|sx| |sx mx ex], y as [sy|sy| |sy my ey];
    simpl; intros Hx Hy; try discriminate; try assumption; try reflexivity.
  - destruct sx, sy; reflexivity.
  - destruct sx, sy; try discriminate; reflexivity.
  - destruct sx, sy; try discriminate.
    apply binary_normalize_nonneg. simpl. lia.
Qed.

(** The product of a value that is [>= 0] and a positive finite one is
    [>= 0]. *)
Lemma SFmul_nonneg (x : spec_float) (my : positive) (ey : Z) :
  sf_nonneg x = true ->
  sf_nonneg (SFmul prec emax x (S754_finite false my ey)) = true.
Proof.
  destruct x as [sx|sx| |sx mx ex]; simpl; intros Hx;
    try discriminate; try reflexivity.
  - destruct sx; try discriminate. reflexivity.
  - destruct sx; try discriminate. simpl.
    apply binary_round_aux_nonneg. lia.
Qed.

Lemma SFldexp_nonneg (x : spec_float) (e : Z) :
  sf_nonneg x = true -> sf_nonneg (SFldexp prec emax x e) = true.
Proof.
  destruct x as [sx|sx| |sx mx ex]; simpl; intros Hx; try assumption.
  destruct sx; try discriminate. apply binary_round_nonneg.
Qed.

End Rounding.

(** ** Comparison *)

Lemma SFcompare_antisym (x y : spec_float) :
  SFcompare y x = option_map CompOpp (SFcompare x y).
Proof.
  destruct x as [sx|sx| |sx mx ex], y as [sy|sy| |sy my ey]; simpl;
    try reflexivity;
    try (destruct sx; reflexivity);
    try (destruct sy; reflexivity);
    try (destruct sx, sy; reflexivity).
  destruct sx, sy; simpl; try reflexivity;
    rewrite (Z.compare_antisym ey ex);
    destruct (ey ?= ex); simpl; try reflexivity;
    rewrite (Pos.compare_cont_antisym mx my Eq); simpl;
    try rewrite CompOpp_involutive; reflexivity.
Qed.

(** Among values that are not NaN, [not (y < x)] gives [x <= y]. *)
Lemma SFleb_of_not_SFltb (x y : spec_float) :
  SFcompare y x <> None -> SFltb y x = false -> SFleb x y = true.
Proof.
  unfold SFltb, SFleb. rewrite (SFcompare_antisym y x).
  destruct (SFcompare y x) as [[]|]; simpl; congruence.
Qed.

Lemma SFcompare_nonneg_defined (x y : spec_float) :
  sf_nonneg x = true -> sf_nonneg y = true -> SFcompare x y <> None.
Proof.
  destruct x as [sx|sx| |sx mx ex], y as [sy|sy| |sy my ey]; simpl;
    intros; congruence.
Qed.

(** [0.0 <= x] says exactly that [x] is one of the non-negative values. *)
Lemma SFleb_zero (x : spec_float) :
  SFleb (S754_zero false) x = sf_nonneg x.
Proof. destruct x as [s|s| |s m e]; simpl; try reflexivity; destruct s; reflexivity. Qed.

(** ** The primitive operations *)

Lemma Prim2SF_zero : Prim2SF 0%float = S754_zero false.
Proof. reflexivity. Qed.

Lemma leb_zero (x : float) : PrimFloat.leb 0%float x = sf_nonneg (Prim2SF x).
Proof. rewrite leb_spec, Prim2SF_zero. apply SFleb_zero. Qed.

Lemma add_nonneg (x y : float) :
  sf_nonneg (Prim2SF x) = true -> sf_nonneg (Prim2SF y) = true ->
  sf_nonneg (Prim2SF (PrimFloat.add x y)) = true.
Proof. intros Hx Hy. rewrite add_spec. apply SFadd_nonneg; assumption. Qed.

Lemma mul_nonneg (x c : float) (m : positive) (e : Z) :
  Prim2SF c = S754_finite false m e ->
  sf_nonneg (Prim2SF x) = true ->
  sf_nonneg (Prim2SF (PrimFloat.mul x c)) = true.
Proof. intros Hc Hx. rewrite mul_spec, Hc. apply SFmul_nonneg, Hx. Qed.

(** The float that [SF2Prim] makes of a non-negative value is
    non-negative. *)
Lemma SF2Prim_nonneg (x : spec_float) :
  sf_nonneg x = true -> sf_nonneg (Prim2SF (SF2Prim x)) = true.
Proof.
  destruct x as [s|s| |s m e]; simpl; intros Hx; try discriminate.
  - destruct s; reflexivity.
  - destruct s; try discriminate. reflexivity.
  - destruct s; try discriminate.
    rewrite FloatLemmas.Z_ldexp_spec. apply SFldexp_nonneg.
    rewrite of_uint63_spec. apply binary_normalize_nonneg.
    apply Uint63.to_Z_bounded.
Qed.

(** A float equal to zero is one of the two zeros. *)
Lemma eqb_zero (x : float) :
  PrimFloat.eqb x 0%float = true -> exists s, Prim2SF x = S754_zero s.
Proof.
  rewrite FloatAxioms.eqb_spec, Prim2SF_zero. unfold SFeqb.
  destruct (Prim2SF x) as [s|s| |s m e]; simpl; try discriminate.
  - intros _. exists s. reflexivity.
  - destruct s; discriminate.
  - destruct s; discriminate.
Qed.

End FloatFacts.

(* ===================================================================== *)
(** * Properties of the MetaAgent *)
(* ===================================================================== *)

Import FloatFacts.

Ltac float_eval := vm_compute; reflexivity.

(** ** The performance score *)

(** The two examples of the specification. *)
Lemma score_of_examples :
  _calculate_performance_score result_best = Ok 1%float /\
  _calculate_performance_score result_failed = Ok 0%float.
Proof. split; float_eval. Qed.

Lemma Prim2SF_three_tenths :
  exists m e, Prim2SF 0.3%float = S754_finite false m e.
Proof. eexists. eexists. vm_compute. reflexivity. Qed.

(** Adding the quality term of a zero quality score changes nothing. *)
Lemma add_zero_product (s q : float) :
  s = 0%float \/ s = PrimFloat.add 0 0.5 ->
  PrimFloat.eqb q 0%float = true ->
  PrimFloat.add s (PrimFloat.mul q 0.3) = s.
Proof.
  intros Hs Hq. apply eqb_zero in Hq as [b Hq].
  destruct Prim2SF_three_tenths as (m & e & Hc).
  apply Prim2SF_inj. rewrite add_spec, mul_spec, Hq, Hc.
  unfold SF64mul, SFmul.
  destruct Hs as [-> | ->].
  - rewrite Prim2SF_zero. destruct b; reflexivity.
  - destruct (Prim2SF (PrimFloat.add 0 0.5)) eqn:E; vm_compute in E; try discriminate.
    reflexivity.
Qed.

(** A number that is falsy contributes a zero quality term. *)
Lemma falsy_number_product (s : float) (q : pyval) :
  s = 0%float \/ s = PrimFloat.add 0 0.5 ->
  truthy q = false -> as_number q <> None ->
  (m <- py_mul_float q 0.3 ;; Ok (PrimFloat.add s m)) = Ok s.
Proof.
  intros Hs Hq Hn. destruct q as [|b|z|f|x|l|d]; simpl in *; try congruence.
  - subst b. destruct Hs as [-> | ->]; float_eval.
  - apply negb_false_iff, Z.eqb_eq in Hq. subst z.
    destruct Hs as [-> | ->]; float_eval.
  - apply negb_false_iff in Hq. unfold py_mul_float. simpl.
    rewrite add_zero_product; auto.
Qed.

(** Wherever neither field is present with a falsy value that the
    specification's rule would count, the code computes the
    specification's rule. *)
Lemma score_matches_specification (result : dict) :
  (forall q, dict_get "quality_score" result = Some q ->
             truthy q = true \/ as_number q <> None) ->
  (forall t, dict_get "execution_time" result = Some t -> truthy t = true) ->
  _calculate_performance_score result = specified_performance_score result.
Proof.
  intros Hq Ht.
  unfold _calculate_performance_score, specified_performance_score.
  unfold dict_getitem, dict_get_default.
  set (s0 := if truthy match dict_get "success" result with
                       | Some v => v | None => VBool false end
             then PrimFloat.add 0 0.5 else 0%float).
  assert (Hs0 : s0 = 0%float \/ s0 = PrimFloat.add 0 0.5).
  { unfold s0. destruct (truthy _); auto. }
  assert (E1 :
    (if truthy match dict_get "quality_score" result with
               | Some v => v | None => VNone end
     then q <- match dict_get "quality_score" result with
               | Some v => Ok v | None => Raise (KeyError "quality_score") end ;;
          m <- py_mul_float q 0.3 ;; Ok (PrimFloat.add s0 m)
     else Ok s0)
    = match dict_get "quality_score" result with
      | Some q => m <- py_mul_float q 0.3 ;; Ok (PrimFloat.add s0 m)
      | None => Ok s0
      end).
  { destruct (dict_get "quality_score" result) as [q|] eqn:E; [|reflexivity].
    destruct (truthy q) eqn:Tq; [reflexivity|].
    destruct (Hq q eq_refl) as [H|H]; [congruence|].
    symmetry. apply falsy_number_product; assumption. }
  rewrite E1. clear E1.
  destruct (match dict_get "quality_score" result with
            | Some q => _ | None => _ end) as [s1|e]; [|reflexivity].
  simpl.
  destruct (dict_get "execution_time" result) as [t|] eqn:E; [|reflexivity].
  rewrite (Ht t eq_refl). reflexivity.
Qed.

(** C1 (the code departs from the rule): a successful result whose
    [execution_time] is 0.0 gets no time bonus, 0.5 in all, although 0.0 is
    below 5.0 and the rule gives it 0.5 + 0.2 = 0.7: the code guards the
    time bonus with the truthiness of [execution_time], and 0.0 is falsy. *)
Theorem score_ignores_zero_execution_time :
  _calculate_performance_score result_zero_time = Ok 0.5%float /\
  specified_performance_score result_zero_time = Ok 0.7%float.
Proof. split; float_eval. Qed.

(** ** The score stays in the unit interval *)

Lemma float_of_Z_nonneg (z : Z) (f : float) :
  0 <= z -> float_of_Z z = Ok f -> sf_nonneg (Prim2SF f) = true.
Proof.
  intros Hz. unfold float_of_Z.
  pose proof (binary_normalize_nonneg prec emax z 0 Hz) as H.
  fold (round_Z z) in H. apply SF2Prim_nonneg in H.
  destruct (round_Z z) as [s|s| |s m e]; intros [= <-]; exact H.
Qed.

(** The quality term of a non-negative quality score is non-negative. *)
Lemma quality_term_nonneg (q : pyval) (m : float) :
  nonneg_number q = true -> py_mul_float q 0.3 = Ok m ->
  sf_nonneg (Prim2SF m) = true.
Proof.
  destruct Prim2SF_three_tenths as (mc & ec & Hc).
  unfold nonneg_number, py_mul_float.
  destruct q as [|b|z|f|x|l|d]; simpl; try discriminate.
  - intros _. destruct (float_of_Z (if b then 1 else 0)) as [f|] eqn:E;
      simpl; intros [= <-].
    apply (mul_nonneg _ _ _ _ Hc).
    assert (Hb : 0 <= (if b then 1 else 0)) by (destruct b; lia).
    apply (float_of_Z_nonneg _ _ Hb E).
  - intros Hz. apply Z.leb_le in Hz.
    destruct (float_of_Z z) as [f|] eqn:E; simpl; intros [= <-].
    apply (mul_nonneg _ _ _ _ Hc). apply (float_of_Z_nonneg _ _ Hz E).
  - rewrite leb_zero. intros Hf [= <-]. apply (mul_nonneg _ _ _ _ Hc), Hf.
Qed.

(** [min(score, 1.0)] of a non-negative score lies between 0.0 and 1.0. *)
Lemma py_min_unit (s : float) :
  sf_nonneg (Prim2SF s) = true -> in_unit_interval (py_min s 1) = true.
Proof.
  intros Hs. unfold py_min.
  destruct (PrimFloat.ltb 1 s) eqn:E; [float_eval|].
  unfold in_unit_interval. rewrite leb_zero, Hs. simpl.
  rewrite leb_spec. rewrite ltb_spec in E.
  apply SFleb_of_not_SFltb; [|exact E].
  apply SFcompare_nonneg_defined; [reflexivity | exact Hs].
Qed.

(** The last two steps of the score: the time bonus, then the cap. *)
Ltac time_bonus_then_cap P1 :=
  destruct (truthy match dict_get "execution_time" _ with
                   | Some v => v | None => VNone end);
  [ destruct (dict_get "execution_time" _) as [t|]; simpl; [|discriminate];
    destruct (py_lt_float t 5) as [[]|]; simpl; try discriminate;
    [ intros [= <-]; apply py_min_unit, add_nonneg; [exact P1|reflexivity]
    | destruct (py_lt_float t 10) as [[]|]; simpl; try discriminate;
      intros [= <-]; apply py_min_unit; [apply add_nonneg|]; auto ]
  | simpl; intros [= <-]; apply py_min_unit, P1 ].

(** Every score computed from a result whose quality score, when it
    counts, is a non-negative number lies in the unit interval. *)
Lemma score_in_unit_interval (result : dict) (score : float) :
  (forall q, dict_get "quality_score" result = Some q ->
             truthy q = true -> nonneg_number q = true) ->
  _calculate_performance_score result = Ok score ->
  in_unit_interval score = true.
Proof.
  intros Hq. unfold _calculate_performance_score, dict_getitem, dict_get_default.
  set (s0 := if truthy _ then PrimFloat.add 0 0.5 else 0%float).
  assert (P0 : sf_nonneg (Prim2SF s0) = true).
  { unfold s0. destruct (truthy _); reflexivity. }
  clearbody s0.
  destruct (dict_get "quality_score" result) as [q|] eqn:Eq;
    [destruct (truthy q) eqn:Tq|]; simpl.
  - destruct (py_mul_float q 0.3) as [m|] eqn:Em; simpl; [|discriminate].
    pose proof (quality_term_nonneg q m (Hq q eq_refl Tq) Em) as Pm.
    pose proof (add_nonneg s0 m P0 Pm) as P1.
    time_bonus_then_cap P1.
  - time_bonus_then_cap P0.
  - time_bonus_then_cap P0.
Qed.

(** The score is computed for every result whose two numeric fields hold
    numbers (or are absent): nothing is raised. *)
Lemma score_is_computed (result : dict) :
  (forall q, dict_get "quality_score" result = Some q -> exists f, q = VFloat f) ->
  (forall t, dict_get "execution_time" result = Some t -> exists f, t = VFloat f) ->
  exists score, _calculate_performance_score result = Ok score.
Proof.
  intros Hq Ht. unfold _calculate_performance_score, dict_getitem, dict_get_default.
  destruct (dict_get "quality_score" result) as [q|].
  - destruct (Hq q eq_refl) as [f ->].
    destruct (dict_get "execution_time" result) as [t|].
    + destruct (Ht t eq_refl) as [g ->]. simpl.
      destruct (negb (PrimFloat.eqb f 0)), (negb (PrimFloat.eqb g 0)); simpl;
        try destruct (PrimFloat.ltb g 5); simpl;
        try destruct (PrimFloat.ltb g 10); eexists; reflexivity.
    + simpl. destruct (negb (PrimFloat.eqb f 0)); eexists; reflexivity.
  - destruct (dict_get "execution_time" result) as [t|].
    + destruct (Ht t eq_refl) as [g ->]. simpl.
      destruct (negb (PrimFloat.eqb g 0)); simpl;
        try destruct (PrimFloat.ltb g 5); simpl;
        try destruct (PrimFloat.ltb g 10); eexists; reflexivity.
    + eexists; reflexivity.
Qed.

Section MetaAgentProofs.
Context `{RT : Runtime}.

(** [_update_optimization_rules] leaves the history alone. *)
Lemma _update_optimization_rules_history (execution_data : ExecutionData)
    (self : MetaAgent) :
  execution_history (_update_optimization_rules execution_data self)
  = execution_history self.
Proof.
  unfold _update_optimization_rules.
  destruct (10 <? _)%nat; [destruct (PrimFloat.ltb _ _)|]; reflexivity.
Qed.

(** What one call of [analyze_execution] that returns does to the
    MetaAgent: one record is appended, and one suggestion naming the
    agent when the history is longer than ten and the recent average is
    below 0.6. *)
Lemma analyze_execution_returns (agent : Agent) (result : dict)
    (self self' : MetaAgent) (w w' : World) :
  analyze_execution agent result self w = (Ok tt, self', w') ->
  exists score,
    _calculate_performance_score result = Ok score /\
    execution_history self' =
      (execution_history self ++
       [{| ed_agent_name := name agent; ed_agent_type := agent_type agent;
           ed_execution_time := fst (datetime_now w); ed_result := result;
           performance_score := score |}])%list /\
    optimization_rules self' =
      (optimization_rules self ++
       (if ((10 <? List.length (execution_history self'))%nat
            && PrimFloat.ltb (recent_average (execution_history self')) 0.6)%bool
        then [suggestion_for (name agent)] else []))%list.
Proof.
  unfold analyze_execution. destruct (datetime_now w) as [now w1]. simpl.
  destruct (_calculate_performance_score result) as [score|e]; [|discriminate].
  intros [= <- <-]. exists score. split; [reflexivity|].
  rewrite !_update_optimization_rules_history.
  cbn [execution_history]. split; [reflexivity|].
  unfold _update_optimization_rules.
  cbn [execution_history optimization_rules].
  set (h := (execution_history self ++ [_])%list).
  destruct (10 <? List.length h)%nat;
    [destruct (PrimFloat.ltb (recent_average h) 0.6)|];
    cbn [optimization_rules andb]; rewrite ?app_nil_r; reflexivity.
Qed.

(** C2 (amended): for every result whose quality score, when it counts, is
    a non-negative number (of any size), the record that
    [analyze_execution] stores has a performance score between 0.0 and
    1.0. *)
Theorem stored_score_in_unit_interval (agent : Agent) (result : dict)
    (self self' : MetaAgent) (w w' : World) :
  (forall q, dict_get "quality_score" result = Some q ->
             truthy q = true -> nonneg_number q = true) ->
  analyze_execution agent result self w = (Ok tt, self', w') ->
  exists record,
    execution_history self' = (execution_history self ++ [record])%list /\
    ed_result record = result /\
    in_unit_interval (performance_score record) = true.
Proof.
  intros Hq H. apply analyze_execution_returns in H as (score & Hs & Hh & _).
  eexists. split; [exact Hh|]. split; [reflexivity|]. simpl.
  apply (score_in_unit_interval result score Hq Hs).
Qed.

(** [analyze_execution] returns whenever the score is computed. *)
Lemma analyze_execution_total (agent : Agent) (result : dict)
    (self : MetaAgent) (w : World) (score : float) :
  _calculate_performance_score result = Ok score ->
  exists self' w', analyze_execution agent result self w = (Ok tt, self', w').
Proof.
  intros H. unfold analyze_execution. destruct (datetime_now w) as [now w1].
  rewrite H. eexists. eexists. reflexivity.
Qed.

End MetaAgentProofs.

(** ** Suggestions under a low rolling average *)

Section RecordingProofs.
Context `{RT : Runtime}.

(** One call inside a sequence that [stays_low]. *)
Lemma stays_low_step (agent : Agent) (result : dict) (tl : list (Agent * dict))
    (self : MetaAgent) (w : World) :
  stays_low ((agent, result) :: tl) self w = true ->
  exists self' w',
    analyze_execution agent result self w = (Ok tt, self', w') /\
    List.length (execution_history self') = S (List.length (execution_history self)) /\
    optimization_rules self' =
      (optimization_rules self ++
       (if (10 <=? List.length (execution_history self))%nat
        then [suggestion_for (name agent)] else []))%list /\
    stays_low tl self' w' = true.
Proof.
  intros H. cbn [stays_low] in H.
  destruct (analyze_execution agent result self w) as [[[[]|e] self'] w'] eqn:E;
    [|discriminate].
  apply andb_true_iff in H as [Hlow Htl].
  exists self', w'. split; [reflexivity|].
  apply analyze_execution_returns in E as (score & _ & Hh & Hr).
  assert (Hlen : List.length (execution_history self')
                 = S (List.length (execution_history self))).
  { rewrite Hh, length_app. simpl. lia. }
  split; [exact Hlen|]. split; [|exact Htl].
  rewrite Hr. f_equal.
  destruct (10 <=? List.length (execution_history self))%nat eqn:Hc.
  - apply Nat.leb_le in Hc.
    assert (Hb : (10 <? List.length (execution_history self'))%nat = true)
      by (apply Nat.ltb_lt; lia).
    rewrite Hb in Hlow |- *. rewrite Hlow. reflexivity.
  - apply Nat.leb_gt in Hc.
    assert (Hb : (10 <? List.length (execution_history self'))%nat = false)
      by (apply Nat.ltb_ge; lia).
    rewrite Hb. reflexivity.
Qed.

(** The suggestions after a whole sequence that [stays_low]: one per call
    made once ten records were in the history, each naming the agent of
    its call. *)
Lemma record_all_low (calls : list (Agent * dict)) :
  forall (self : MetaAgent) (w : World),
  stays_low calls self w = true ->
  exists self' w',
    record_all calls self w = (Ok tt, self', w') /\
    List.length (execution_history self')
    = (List.length (execution_history self) + List.length calls)%nat /\
    optimization_rules self' =
      (optimization_rules self ++
       map (fun c => suggestion_for (name (fst c)))
           (skipn (10 - List.length (execution_history self)) calls))%list.
Proof.
  induction calls as [|[agent result] tl IH]; intros self w H.
  - exists self, w. split; [reflexivity|]. split; [simpl; lia|].
    rewrite skipn_nil. simpl. symmetry. apply app_nil_r.
  - apply stays_low_step in H as (self1 & w1 & E & Hlen & Hr & Htl).
    destruct (IH self1 w1 Htl) as (self' & w' & Erec & Hlen' & Hr').
    exists self', w'. split; [simpl; rewrite E; exact Erec|].
    split; [rewrite Hlen', Hlen; simpl; lia|].
    rewrite Hr', Hr, Hlen, <- app_assoc. f_equal.
    destruct (Nat.leb_spec 10 (List.length (execution_history self))) as [Hge|Hlt].
    + replace (10 - List.length (execution_history self))%nat with 0%nat by lia.
      replace (10 - S (List.length (execution_history self)))%nat with 0%nat by lia.
      reflexivity.
    + replace (10 - List.length (execution_history self))%nat
        with (S (10 - S (List.length (execution_history self))))%nat by lia.
      reflexivity.
Qed.

(** A sequence that [stays_low] does so up to any point, and from there. *)
Lemma stays_low_app (calls more : list (Agent * dict)) :
  forall (self : MetaAgent) (w : World),
  stays_low (calls ++ more) self w = true ->
  stays_low calls self w = true /\
  forall self' w', record_all calls self w = (Ok tt, self', w') ->
                   stays_low more self' w' = true.
Proof.
  induction calls as [|[agent result] tl IH]; intros self w H.
  - split; [reflexivity|]. simpl. intros self' w' [= <- <-]. exact H.
  - simpl in *.
    destruct (analyze_execution agent result self w) as [[[[]|e] self1] w1];
      [|discriminate].
    apply andb_true_iff in H as [Hlow Htl].
    destruct (IH self1 w1 Htl) as [H1 H2].
    rewrite Hlow, H1. split; [reflexivity|exact H2].
Qed.

(** The last call of a sequence that [stays_low], from a fresh
    MetaAgent. *)
Lemma stays_low_last_call (calls : list (Agent * dict))
    (agent : Agent) (result : dict) (w : World) :
  stays_low (calls ++ [(agent, result)]) MetaAgent_init w = true ->
  exists self w1 self' w',
    record_all calls MetaAgent_init w = (Ok tt, self, w1) /\
    analyze_execution agent result self w1 = (Ok tt, self', w') /\
    List.length (execution_history self) = List.length calls /\
    optimization_rules self' =
      (optimization_rules self ++
       (if (10 <=? List.length calls)%nat
        then [suggestion_for (name agent)] else []))%list /\
    List.length (optimization_rules self') = (List.length calls + 1 - 10)%nat.
Proof.
  intros H. apply stays_low_app in H as [Hcalls Hlast].
  destruct (record_all_low calls MetaAgent_init w Hcalls)
    as (self & w1 & Erec & Hlen & Hr).
  change (List.length (execution_history MetaAgent_init)) with 0%nat in Hlen, Hr.
  change (optimization_rules MetaAgent_init) with (@nil Optimization) in Hr.
  rewrite Nat.sub_0_r, app_nil_l in Hr. rewrite Nat.add_0_l in Hlen.
  specialize (Hlast self w1 Erec).
  apply stays_low_step in Hlast as (self' & w' & E & _ & Hr' & _).
  exists self, w1, self', w'.
  split; [exact Erec|]. split; [exact E|]. split; [exact Hlen|].
  rewrite Hlen in Hr'. split; [exact Hr'|].
  rewrite Hr', Hr, length_app, length_map, length_skipn.
  destruct (10 <=? List.length calls)%nat eqn:Hc; cbn [List.length].
  - apply Nat.leb_le in Hc. lia.
  - apply Nat.leb_gt in Hc. lia.
Qed.


(** The average that the code computes over a history longer than ten is
    the rolling average of its scores: the sum of the last ten divided by
    ten. *)
Lemma recent_average_is_window_average (history : list ExecutionData)
    (later : list float) :
  (10 < List.length history)%nat ->
  recent_average history
  = window_average (map performance_score history ++ later) (List.length history).
Proof.
  intros Hlen. unfold recent_average, window_average, scores_window, last10.
  assert (Hten : List.length (skipn (List.length history - 10) history) = 10%nat)
    by (rewrite length_skipn; lia).
  rewrite Hten.
  rewrite skipn_app, length_map, skipn_map.
  replace (List.length history - 10 - List.length history)%nat with 0%nat by lia.
  rewrite skipn_O, firstn_app, length_map, Hten, Nat.sub_diag, firstn_O, app_nil_r.
  rewrite <- (length_map performance_score) in Hten.
  rewrite firstn_all2 by (rewrite Hten; lia). reflexivity.
Qed.

(** A sequence of calls whose scores keep the rolling average below 0.6
    is one that [stays_low]. *)
Lemma low_rolling_average_stays_low (calls : list (Agent * dict)) :
  forall (scores : list float) (self : MetaAgent) (w : World),
  Forall2 scored calls scores ->
  rolling_average_below (map performance_score (execution_history self) ++ scores)
  = true ->
  stays_low calls self w = true.
Proof.
  induction calls as [|[agent result] tl IH]; intros scores self w Hs Hlow;
    [reflexivity|].
  inversion Hs as [|c s tl' scores' Hc Htl]; subst. unfold scored in Hc. simpl in Hc.
  destruct (analyze_execution_total agent result self w s Hc) as (self1 & w1 & E).
  cbn [stays_low]. rewrite E.
  apply analyze_execution_returns in E as (s' & Hc' & Hh & _).
  rewrite Hc in Hc'. injection Hc' as <-.
  assert (Hall : (map performance_score (execution_history self) ++ s :: scores')%list
                 = (map performance_score (execution_history self1) ++ scores')%list).
  { rewrite Hh, map_app, <- app_assoc. reflexivity. }
  rewrite Hall in Hlow.
  apply andb_true_iff. split; [|apply (IH scores' self1 w1 Htl Hlow)].
  destruct (10 <? List.length (execution_history self1))%nat eqn:Hk; [|reflexivity].
  apply Nat.ltb_lt in Hk.
  rewrite (recent_average_is_window_average _ scores' Hk).
  unfold rolling_average_below in Hlow. rewrite forallb_forall in Hlow.
  apply Hlow. apply in_seq. rewrite length_app, length_map. lia.
Qed.

(** The scores stored by a sequence of calls that all return are the
    scores of their results. *)
Lemma record_all_scores (calls : list (Agent * dict)) :
  forall (scores : list float) (self self' : MetaAgent) (w w' : World),
  Forall2 scored calls scores ->
  record_all calls self w = (Ok tt, self', w') ->
  map performance_score (execution_history self')
  = (map performance_score (execution_history self) ++ scores)%list.
Proof.
  induction calls as [|[agent result] tl IH]; intros scores self self' w w' Hs H;
    inversion Hs as [|c s tl' scores' Hc Htl]; subst.
  - injection H as <- _. symmetry. apply app_nil_r.
  - unfold scored in Hc. simpl in Hc, H.
    destruct (analyze_execution agent result self w) as [[[[]|e] self1] w1] eqn:E;
      [|discriminate].
    apply analyze_execution_returns in E as (s' & Hc' & Hh & _).
    rewrite Hc in Hc'. injection Hc' as <-.
    rewrite (IH scores' self1 self' w1 w' Htl H), Hh, map_app, <- app_assoc.
    reflexivity.
Qed.

(** C3: take any sequence of executions recorded by a fresh MetaAgent
    whose scores keep the rolling average of the last ten (their sum
    divided by ten) below 0.6 from the 11th record on. The record made
    when [n] records are in the history appends exactly one suggestion,
    naming the agent of this record, when [n >= 10] (the 11th record and
    every later one), and appends nothing when [n < 10]; the suggestions
    then number [n + 1 - 10], so 10 after 20 records. The scores stored
    are those of the results. *)
Theorem low_average_appends_one_suggestion (calls : list (Agent * dict))
    (agent : Agent) (result : dict) (scores : list float) (w : World) :
  Forall2 scored (calls ++ [(agent, result)]) scores ->
  rolling_average_below scores = true ->
  exists self w1 self' w',
    record_all calls MetaAgent_init w = (Ok tt, self, w1) /\
    analyze_execution agent result self w1 = (Ok tt, self', w') /\
    List.length (execution_history self) = List.length calls /\
    map performance_score (execution_history self') = scores /\
    optimization_rules self' =
      (optimization_rules self ++
       (if (10 <=? List.length calls)%nat
        then [suggestion_for (name agent)] else []))%list /\
    List.length (optimization_rules self') = (List.length calls + 1 - 10)%nat.
Proof.
  intros Hs Hlow.
  pose proof (low_rolling_average_stays_low _ scores MetaAgent_init w Hs Hlow) as H.
  apply stays_low_last_call in H as (self & w1 & self' & w' & Er & Ea & Hl & Hr & Hn).
  exists self, w1, self', w'.
  split; [exact Er|]. split; [exact Ea|]. split; [exact Hl|].
  split; [|split; assumption].
  apply Forall2_app_inv_l in Hs as (s1 & s2 & Hs1 & Hs2 & ->).
  pose proof (record_all_scores calls s1 MetaAgent_init self w w1 Hs1 Er) as H1.
  assert (Er2 : record_all [(agent, result)] self w1 = (Ok tt, self', w'))
    by (simpl; rewrite Ea; reflexivity).
  rewrite (record_all_scores _ s2 self self' w1 w' Hs2 Er2), H1. reflexivity.
Qed.

End RecordingProofs.

(* ===================================================================== *)
(** * Properties of the InjectionEngine *)
(* ===================================================================== *)

Lemma dict_get_set_same (k : string) (v : pyval) (d : dict) :
  dict_get k (dict_set k v d) = Some v.
Proof.
  induction d as [|[k' v'] tl IH]; simpl.
  - rewrite String.eqb_refl. reflexivity.
  - destruct (String.eqb k k') eqn:E; simpl; rewrite ?E, ?String.eqb_refl; auto.
Qed.

Lemma has_key_getitem (k : string) (d : dict) :
  has_key k d = true -> exists v, py_getitem (VDict d) k = Ok v.
Proof.
  unfold has_key, py_getitem, dict_getitem.
  destruct (dict_get k d) as [v|]; [|discriminate]. intros _. exists v. reflexivity.
Qed.

Lemma lacks_key_getitem (k : string) (d : dict) :
  has_key k d = false -> py_getitem (VDict d) k = Raise (KeyError k).
Proof.
  unfold has_key, py_getitem, dict_getitem.
  destruct (dict_get k d) as [v|]; [discriminate|]. reflexivity.
Qed.

Section LoadRulesProofs.
Context `{RT : Runtime}.

(** ** Loading rules *)

Lemma build_agent_ok (agent_data : pyval) (w : World) :
  agent_entry_ok agent_data = true ->
  exists a w', build_agent agent_data w = (Ok a, w').
Proof.
  destruct agent_data as [| | | | | |d]; try discriminate. simpl.
  intros H. apply andb_true_iff in H as [Hn Ht].
  apply has_key_getitem in Hn as [n Hn], Ht as [t Ht].
  unfold build_agent. rewrite Hn, Ht. simpl.
  destruct (Agent_new _ _ _ _ w) as [a w']. eauto.
Qed.

Lemma build_agent_missing (d : dict) (w : World) :
  (has_key "name" d && has_key "type" d)%bool = false ->
  exists k, build_agent (VDict d) w = (Raise (KeyError k), w) /\
            required_field k = true.
Proof.
  intros H. unfold build_agent.
  destruct (has_key "name" d) eqn:Hn.
  - simpl in H. apply has_key_getitem in Hn as [n Hn].
    rewrite Hn, (lacks_key_getitem _ _ H). simpl. eauto.
  - rewrite (lacks_key_getitem _ _ Hn). simpl. eauto.
Qed.

Lemma build_agents_ok (items : list pyval) :
  forallb agent_entry_ok items = true ->
  forall agents w, exists ags w', build_agents items agents w = (Ok ags, w').
Proof.
  induction items as [|ad tl IH]; simpl; intros H agents w; [eauto|].
  apply andb_true_iff in H as [Had Htl].
  destruct (build_agent_ok ad w Had) as (a & w' & E). rewrite E. apply IH, Htl.
Qed.

Lemma build_agents_missing (items : list pyval) :
  agents_missing_field items = true ->
  forall agents w, exists k w',
    build_agents items agents w = (Raise (KeyError k), w') /\
    required_field k = true.
Proof.
  induction items as [|ad tl IH]; simpl; [discriminate|].
  destruct ad as [| | | | | |d]; try discriminate.
  destruct (has_key "name" d && has_key "type" d)%bool eqn:E; intros H agents w.
  - destruct (build_agent_ok (VDict d) w E) as (a & w' & Ea). rewrite Ea.
    apply IH, H.
  - destruct (build_agent_missing d w E) as (k & Ea & Hk). rewrite Ea. eauto.
Qed.

Lemma agent_items_iter (d : dict) (items : list pyval) :
  agent_items d = Some items ->
  (v <- py_get (VDict d) "agents" (VList []) ;; py_iter v) = Ok items.
Proof.
  unfold agent_items, py_get, dict_get_default.
  destruct (dict_get "agents" d) as [[| | | | |l|]|]; simpl; congruence.
Qed.

(** A well-formed trigger entry yields a [Trigger]. *)
Lemma build_trigger_ok (trigger_data : pyval) (w : World) :
  trigger_entry_ok trigger_data = true ->
  exists t w', build_trigger trigger_data w = (Ok t, w').
Proof.
  destruct trigger_data as [| | | | | |d]; try discriminate. simpl.
  destruct (agent_items d) as [items|] eqn:Ei; [|discriminate].
  intros H. apply andb_true_iff in H as [H Hc]. apply andb_true_iff in H as [Ha Hn].
  unfold build_trigger. rewrite (agent_items_iter d items Ei).
  destruct (build_agents_ok items Ha [] w) as (ags & w' & E). rewrite E.
  apply has_key_getitem in Hn as [n Hn], Hc as [c Hc]. rewrite Hn, Hc. simpl.
  eauto.
Qed.

(** A trigger entry that lacks a required field raises [KeyError] for
    that field. *)
Lemma build_trigger_missing (trigger_data : pyval) (w : World) :
  trigger_entry_missing_field trigger_data = true ->
  exists k w', build_trigger trigger_data w = (Raise (KeyError k), w') /\
               required_field k = true.
Proof.
  destruct trigger_data as [| | | | | |d]; try discriminate. simpl.
  destruct (agent_items d) as [items|] eqn:Ei; [|discriminate].
  intros H. unfold build_trigger. rewrite (agent_items_iter d items Ei).
  apply orb_true_iff in H as [H|H].
  - destruct (build_agents_missing items H [] w) as (k & w' & E & Hk).
    rewrite E. eauto.
  - apply andb_true_iff in H as [Ha H]. apply negb_true_iff in H.
    destruct (build_agents_ok items Ha [] w) as (ags & w' & E). rewrite E.
    destruct (has_key "name" d) eqn:Hn.
    + simpl in H. apply has_key_getitem in Hn as [n Hn].
      rewrite Hn, (lacks_key_getitem _ _ H). simpl. eauto.
    + rewrite (lacks_key_getitem _ _ Hn). simpl. eauto.
Qed.

(** Well-formed entries are all loaded, in order, after what is there. *)
Lemma load_triggers_loop_ok (items : list pyval) :
  forallb trigger_entry_ok items = true ->
  forall self_triggers w, exists ts w',
    load_triggers_loop items self_triggers w = (Ok tt, (self_triggers ++ ts)%list, w') /\
    List.length ts = List.length items.
Proof.
  induction items as [|td tl IH]; simpl; intros H acc w.
  - exists [], w. rewrite app_nil_r. auto.
  - apply andb_true_iff in H as [Htd Htl].
    destruct (build_trigger_ok td w Htd) as (t & w1 & E). rewrite E.
    destruct (IH Htl (acc ++ [t])%list w1) as (ts & w' & E' & Hlen).
    exists (t :: ts), w'. rewrite E', <- app_assoc. simpl. auto.
Qed.

(** The loop over a list continues where the loop over a prefix ends. *)
Lemma load_triggers_loop_app (items rest : list pyval) :
  forall self_triggers w ts w',
  load_triggers_loop items self_triggers w = (Ok tt, ts, w') ->
  load_triggers_loop (items ++ rest) self_triggers w = load_triggers_loop rest ts w'.
Proof.
  induction items as [|td tl IH]; simpl; intros acc w ts w' H.
  - injection H as <- <-. reflexivity.
  - destruct (build_trigger td w) as [[t|e] w1]; [|discriminate].
    apply IH, H.
Qed.

(** When the document cannot be parsed, nothing has been touched yet. *)
Lemma load_rules_parse_failure (self : InjectionEngine) (c : ascii) (text : string)
    (e : exn) (w : World) :
  yaml_safe_load (String c text) = Raise e ->
  load_rules (Some (String c text)) self w = (Raise e, self, w).
Proof. intros H. unfold load_rules. rewrite H. reflexivity. Qed.

(** A document of well-formed entries replaces the trigger set. *)
Lemma load_rules_success (self : InjectionEngine) (c : ascii) (text : string)
    (d : dict) (items : list pyval) (w : World) :
  yaml_safe_load (String c text) = Ok (VDict d) ->
  dict_get "triggers" d = Some (VList items) ->
  forallb trigger_entry_ok items = true ->
  exists ts w',
    load_rules (Some (String c text)) self w = (Ok tt, set_triggers self ts, w') /\
    List.length ts = List.length items.
Proof.
  intros Hy Hd Hok.
  destruct (load_triggers_loop_ok items Hok [] w) as (ts & w' & E & Hlen).
  exists ts, w'. split; [|exact Hlen].
  unfold load_rules. rewrite Hy. unfold py_get, dict_get_default. rewrite Hd.
  simpl in *. rewrite E. reflexivity.
Qed.

End LoadRulesProofs.

Section ExecutionProofs.
Context `{RT : Runtime}.

(** ** Executing one agent *)

(** The two ways [_execute_agent] ends, by the outcome of its [try]
    block. *)
Lemma _execute_agent_cases (self : InjectionEngine) (agent : Agent)
    (project_request : dict) (w : World) :
  let '(agent', result, w') := _execute_agent self agent project_request w in
  (status agent' = "completed" /\
   execution_count agent' = execution_count agent + 1 /\
   (exists r w1, execute_dispatch self (set_status agent "executing") project_request
                   (snd (datetime_now w)) = (Ok r, w1)) /\
   dict_get "success" result = Some (VBool true))
  \/
  (status agent' = "error" /\
   execution_count agent' = execution_count agent /\
   (exists e w1, execute_dispatch self (set_status agent "executing") project_request
                   (snd (datetime_now w)) = (Raise e, w1)) /\
   dict_get "success" result = Some (VBool false)).
Proof.
  unfold _execute_agent. destruct (datetime_now w) as [start_time w0]. simpl.
  destruct (execute_dispatch self _ project_request w0) as [[r|e] w1].
  - destruct (datetime_now w1) as [t1 w2]. destruct (datetime_now w2) as [t2 w3].
    left. split; [reflexivity|]. split; [reflexivity|].
    split; [eauto|]. apply dict_get_set_same.
  - destruct (datetime_now w1) as [t1 w2].
    right. split; [reflexivity|]. split; [reflexivity|].
    split; [eauto|]. reflexivity.
Qed.

(** C5 (amended): one execution attempt ends in status completed or in
    status error; it increases [execution_count] by exactly 1 when it ends
    in status completed, and leaves [execution_count] unchanged when it
    ends in status error, which is how it ends when the agent type is
    not in the registry. *)
Theorem execution_count_counts_completed_runs (self : InjectionEngine)
    (agent agent' : Agent) (project_request result : dict) (w w' : World) :
  _execute_agent self agent project_request w = (agent', result, w') ->
  (status agent' = "completed" \/ status agent' = "error") /\
  (status agent' = "completed" -> execution_count agent' = execution_count agent + 1) /\
  (status agent' = "error" -> execution_count agent' = execution_count agent) /\
  (get_agent_info (agent_registry self) (agent_type agent) = Ok None ->
   status agent' = "error").
Proof.
  intros E. pose proof (_execute_agent_cases self agent project_request w) as H.
  rewrite E in H.
  destruct H as [(Hs & Hc & _ & _) | (Hs & Hc & (e & w1 & Hd) & _)].
  - split; [auto|]. split; [auto|]. split; [rewrite Hs; discriminate|].
    intros Hnone. exfalso. revert E. unfold _execute_agent. destruct (datetime_now w) as [t0 w0].
    unfold execute_dispatch. simpl. rewrite Hnone. simpl.
    destruct (datetime_now w0) as [t1 w2]. intros [= <- _ _].
    discriminate Hs.
  - split; [auto|]. split; [rewrite Hs; discriminate|]. split; auto.
Qed.


(** The registry has no entry for a string other than its four keys, so
    the generic branch of the dispatch is never taken. *)
Lemma registered_types (self : InjectionEngine) (t : string) (info : AgentInfo) :
  agent_registry self = AgentRegistry_init ->
  get_agent_info (agent_registry self) (VStr t) = Ok (Some info) ->
  In t ["code_analysis"; "test_automation"; "documentation"; "deployment"].
Proof.
  intros -> H. simpl in H.
  destruct (String.eqb_spec t "code_analysis"); [subst; simpl; auto|].
  destruct (String.eqb_spec t "test_automation"); [subst; simpl; auto|].
  destruct (String.eqb_spec t "documentation"); [subst; simpl; auto|].
  destruct (String.eqb_spec t "deployment"); [subst; simpl; auto 6|].
  discriminate.
Qed.

End ExecutionProofs.

Section TriggerProofs.
Context `{RT : Runtime}.

(** ** Evaluating conditions *)

(** [_evaluate_custom_condition] answers true exactly when the service
    returns a text that reads [true] once stripped and lower-cased. *)
Lemma _evaluate_custom_condition_true (condition : string) (project_request : dict)
    (w : World) :
  fst (_evaluate_custom_condition condition project_request w) = true <->
  exists s,
    fst (chat_completions_create
           (custom_condition_request condition project_request) w) = Ok (VStr s) /\
    py_lower (py_strip s) = "true".
Proof.
  unfold _evaluate_custom_condition.
  destruct (chat_completions_create _ w) as [[content|e] w1]; simpl.
  - destruct content as [| | | |s| |]; simpl;
      try (split; [discriminate | intros (s' & [=] & _)]).
    split.
    + intros H. exists s. split; [reflexivity|]. apply String.eqb_eq, H.
    + intros (s' & [= <-] & H). apply String.eqb_eq, H.
  - split; [discriminate | intros (s' & [=] & _)].
Qed.

(** The world after [_evaluate_custom_condition] is the one the service
    call leaves. *)
Lemma _evaluate_custom_condition_world (condition : string) (project_request : dict)
    (w : World) :
  snd (_evaluate_custom_condition condition project_request w)
  = snd (chat_completions_create
           (custom_condition_request condition project_request) w).
Proof.
  unfold _evaluate_custom_condition.
  destruct (chat_completions_create _ w) as [[content|e] w1]; simpl;
    [destruct (py_strip_lower content); reflexivity | reflexivity].
Qed.

(** A condition outside the fixed vocabulary goes, lower-cased, to
    [_evaluate_custom_condition]. *)
Lemma _evaluate_trigger_falls_through (trigger : Trigger) (c : string)
    (project_request : dict) (w : World) :
  condition trigger = VStr c ->
  in_fixed_vocabulary (py_lower c) = false ->
  _evaluate_trigger trigger project_request w
  = (Ok (VBool (fst (_evaluate_custom_condition (py_lower c) project_request w))),
     snd (_evaluate_custom_condition (py_lower c) project_request w)).
Proof.
  intros Hc Hv. unfold _evaluate_trigger. rewrite Hc. simpl.
  unfold in_fixed_vocabulary in Hv. simpl in Hv.
  repeat (apply orb_false_iff in Hv as [?E Hv]).
  rewrite E, E0, E1, E2, E3, E4.
  destruct (_evaluate_custom_condition _ _ w). reflexivity.
Qed.

(** C7: for a condition outside the fixed vocabulary the evaluation
    returns a boolean and never raises; the boolean is true exactly when
    the service call returns a text that, stripped and lower-cased, is
    [true]. Any other response and any failure of the call give false. *)
Theorem custom_condition_true_iff_service_says_true (trigger : Trigger) (c : string)
    (project_request : dict) (w : World) :
  condition trigger = VStr c ->
  in_fixed_vocabulary (py_lower c) = false ->
  exists b w',
    _evaluate_trigger trigger project_request w = (Ok (VBool b), w') /\
    (b = true <->
     exists s,
       fst (chat_completions_create
              (custom_condition_request (py_lower c) project_request) w)
       = Ok (VStr s) /\
       py_lower (py_strip s) = "true").
Proof.
  intros Hc Hv. eexists. eexists.
  split; [apply (_evaluate_trigger_falls_through trigger c); assumption|].
  apply _evaluate_custom_condition_true.
Qed.

(** The value that the [file_changed] branch returns is the
    [files_modified] entry itself ([False] when there is none), so its
    truthiness is that of the entry. *)
Lemma file_changed_returns_the_entry (trigger : Trigger) (c : string)
    (project_request : dict) (w : World) :
  condition trigger = VStr c ->
  py_lower c = "file_changed" ->
  _evaluate_trigger trigger project_request w
  = (Ok (dict_get_default "files_modified" (VBool false) project_request), w).
Proof.
  intros Hc Hl. unfold _evaluate_trigger. rewrite Hc. simpl. rewrite Hl. reflexivity.
Qed.

(** C9: every spelling of [always] that lower-cases to it makes the
    trigger fire, whatever the request, without any call to the service
    (the world is unchanged); [always] followed by a space is not in the
    fixed vocabulary and is handed to [_evaluate_custom_condition]. *)
Theorem always_matches_exactly (project_request : dict) (w : World) :
  (forall trigger c,
     condition trigger = VStr c -> py_lower c = "always" ->
     _evaluate_trigger trigger project_request w = (Ok (VBool true), w)) /\
  (forall trigger,
     condition trigger = VStr "always " ->
     _evaluate_trigger trigger project_request w
     = (Ok (VBool (fst (_evaluate_custom_condition "always " project_request w))),
        snd (_evaluate_custom_condition "always " project_request w))).
Proof.
  split.
  - intros trigger c Hc Hl. unfold _evaluate_trigger. rewrite Hc. simpl.
    rewrite Hl. reflexivity.
  - intros trigger Hc.
    apply (_evaluate_trigger_falls_through trigger "always "); [exact Hc|reflexivity].
Qed.

(** ** Processing a request *)

(** C10: when an exception leaves the trigger loop, the report has
    [overall_status] error, the text of the exception in [error], and an
    empty [meta_agent_insights], whatever suggestions the MetaAgent
    holds. *)
Theorem failed_request_reports_no_insights (self : InjectionEngine)
    (project_request : dict) (w : World) (e : exn) (ts : list Trigger)
    (st : LoopState) :
  run_triggers self (triggers self) project_request
               {| ls_meta := meta_agent self; ls_executed := [];
                  ls_world := snd (datetime_now w) |}
  = (Raise e, ts, st) ->
  let report := fst (fst (process_project_request self project_request w)) in
  overall_status report = "error" /\
  meta_agent_insights report = [] /\
  error report = Some (exn_str e) /\
  agents_executed report = ls_executed st.
Proof.
  intros H. unfold process_project_request.
  destruct (datetime_now w) as [now w0]. simpl in H. rewrite H. simpl. auto.
Qed.

(** When the loop ends normally, the report carries the suggestions the
    MetaAgent has at that point. *)
Lemma successful_request_reports_insights (self : InjectionEngine)
    (project_request : dict) (w : World) (ts : list Trigger) (st : LoopState) :
  run_triggers self (triggers self) project_request
               {| ls_meta := meta_agent self; ls_executed := [];
                  ls_world := snd (datetime_now w) |}
  = (Ok tt, ts, st) ->
  let report := fst (fst (process_project_request self project_request w)) in
  overall_status report = "success" /\
  meta_agent_insights report = optimization_rules (ls_meta st) /\
  error report = None.
Proof.
  intros H. unfold process_project_request.
  destruct (datetime_now w) as [now w0]. simpl in H. rewrite H. simpl. auto.
Qed.

End TriggerProofs.

(* ===================================================================== *)
(** * Further properties of the MetaAgent *)
(* ===================================================================== *)

Lemma py_min_not_above (s : float) : PrimFloat.ltb 1 (py_min s 1) = false.
Proof.
  unfold py_min. destruct (PrimFloat.ltb 1 s) eqn:E; [reflexivity | exact E].
Qed.

(** X1: no performance score is greater than 1.0, whatever the result
    holds: the comparison [1.0 < score] is false for every score that
    [_calculate_performance_score] returns. *)
Theorem score_never_above_one (result : dict) (score : float) :
  _calculate_performance_score result = Ok score ->
  PrimFloat.ltb 1 score = false.
Proof.
  unfold _calculate_performance_score.
  match goal with |- bind ?c _ = _ -> _ => destruct c as [s1|]; [|discriminate] end.
  simpl.
  match goal with |- bind ?c _ = _ -> _ => destruct c as [s2|]; [|discriminate] end.
  simpl. intros [= <-]. apply py_min_not_above.
Qed.

(** X2: the score looks at three fields only: two results that agree on
    [success], [quality_score] and [execution_time] get the same score (or
    the same exception), whatever else they hold. *)
Theorem score_depends_on_three_fields (r1 r2 : dict) :
  dict_get "success" r1 = dict_get "success" r2 ->
  dict_get "quality_score" r1 = dict_get "quality_score" r2 ->
  dict_get "execution_time" r1 = dict_get "execution_time" r2 ->
  _calculate_performance_score r1 = _calculate_performance_score r2.
Proof.
  intros Hs Hq Ht.
  unfold _calculate_performance_score, dict_getitem, dict_get_default.
  rewrite Hs, Hq, Ht. reflexivity.
Qed.

Section MetaAgentMore.
Context `{RT : Runtime}.

(** X3: a result whose [quality_score] is a non-empty string cannot be
    scored: [analyze_execution] raises [TypeError] after reading the clock
    and records nothing. *)
Theorem textual_quality_score_is_not_recorded (agent : Agent) (result : dict)
    (q : string) (self : MetaAgent) (w : World) :
  dict_get "quality_score" result = Some (VStr q) ->
  q <> "" ->
  analyze_execution agent result self w
  = (Raise (TypeError "can't multiply sequence by non-int of type 'float'"),
     self, snd (datetime_now w)).
Proof.
  intros Hq Hne. unfold analyze_execution. destruct (datetime_now w) as [now w1].
  unfold _calculate_performance_score, dict_getitem, dict_get_default.
  rewrite Hq. simpl.
  destruct (String.eqb_spec q ""); [contradiction|]. reflexivity.
Qed.

(** What one call of [analyze_execution] does to the two lists, whether it
    returns or raises: it appends at most one record, and a suggestion
    only together with a record that makes the history longer than ten. *)
Lemma analyze_execution_appends (agent : Agent) (result : dict)
    (self self' : MetaAgent) (w w' : World) (r : outcome unit) :
  analyze_execution agent result self w = (r, self', w') ->
  exists hs rs,
    execution_history self' = (execution_history self ++ hs)%list /\
    optimization_rules self' = (optimization_rules self ++ rs)%list /\
    (List.length hs <= 1)%nat /\
    (List.length rs <= List.length hs)%nat /\
    (rs <> [] -> (10 < List.length (execution_history self'))%nat).
Proof.
  intros H. destruct r as [[]|e].
  - apply analyze_execution_returns in H as (score & _ & Hh & Hr).
    eexists. eexists. split; [exact Hh|]. split; [exact Hr|].
    split; [simpl; lia|].
    destruct (10 <? List.length (execution_history self'))%nat eqn:E; simpl.
    + destruct (PrimFloat.ltb _ _); simpl; split; try lia; intros _;
        apply Nat.ltb_lt, E.
    + split; [lia|congruence].
  - revert H. unfold analyze_execution. destruct (datetime_now w) as [now w1].
    destruct (_calculate_performance_score result); [discriminate|].
    intros [= _ <- _]. exists [], []. rewrite !app_nil_r. simpl.
    repeat split; try lia. congruence.
Qed.

(** X4: recording only ever appends: after any sequence of calls, whether
    or not one of them raised, the history and the suggestion list each
    start with what they held before; at most one record per call was
    added, and at most one suggestion per added record. *)
Theorem record_all_only_appends (calls : list (Agent * dict)) :
  forall (self self' : MetaAgent) (w w' : World) (r : outcome unit),
  record_all calls self w = (r, self', w') ->
  exists hs rs,
    execution_history self' = (execution_history self ++ hs)%list /\
    optimization_rules self' = (optimization_rules self ++ rs)%list /\
    (List.length rs <= List.length hs <= List.length calls)%nat.
Proof.
  induction calls as [|[agent result] tl IH]; intros self self' w w' r H.
  - injection H as _ <- _. exists [], []. rewrite !app_nil_r. simpl. auto.
  - simpl in H.
    destruct (analyze_execution agent result self w) as [[r1 self1] w1] eqn:E.
    apply analyze_execution_appends in E as (hs1 & rs1 & Hh1 & Hr1 & L1 & L2 & _).
    destruct r1 as [[]|e].
    + apply IH in H as (hs & rs & Hh & Hr & L).
      exists (hs1 ++ hs)%list, (rs1 ++ rs)%list.
      rewrite Hh, Hr, Hh1, Hr1, <- !app_assoc, !length_app. simpl.
      repeat split; lia.
    + injection H as _ <- _. exists hs1, rs1. simpl. repeat split; try assumption; lia.
Qed.

(** The bound of X5 is kept by every call. *)
Lemma analyze_execution_keeps_bound (agent : Agent) (result : dict)
    (self self' : MetaAgent) (w w' : World) (r : outcome unit) :
  analyze_execution agent result self w = (r, self', w') ->
  (List.length (optimization_rules self)
   <= List.length (execution_history self) - 10)%nat ->
  (List.length (optimization_rules self')
   <= List.length (execution_history self') - 10)%nat.
Proof.
  intros H Hb.
  apply analyze_execution_appends in H as (hs & rs & Hh & Hr & L1 & L2 & L3).
  destruct rs as [|x rs].
  - rewrite Hr, Hh, app_nil_r, length_app. lia.
  - specialize (L3 ltac:(discriminate)).
    rewrite Hr, length_app. rewrite Hh, length_app in L3 |- *. simpl in *. lia.
Qed.

(** X5: a MetaAgent that started empty never holds more suggestions than
    it has records beyond the first ten, after any sequence of calls. *)
Theorem suggestions_bounded_by_history (calls : list (Agent * dict)) (w : World) :
  let '(_, self, _) := record_all calls MetaAgent_init w in
  (List.length (optimization_rules self)
   <= List.length (execution_history self) - 10)%nat.
Proof.
  assert (G : forall (self self' : MetaAgent) (w w' : World) (r : outcome unit),
             record_all calls self w = (r, self', w') ->
             (List.length (optimization_rules self)
              <= List.length (execution_history self) - 10)%nat ->
             (List.length (optimization_rules self')
              <= List.length (execution_history self') - 10)%nat).
  { induction calls as [|[agent result] tl IH]; intros self self' w0 w' r H Hb.
    - injection H as _ <- _. exact Hb.
    - simpl in H.
      destruct (analyze_execution agent result self w0) as [[r1 self1] w1] eqn:E.
      pose proof (analyze_execution_keeps_bound _ _ _ _ _ _ _ E Hb) as Hb1.
      destruct r1 as [[]|e].
      + apply (IH _ _ _ _ _ H Hb1).
      + injection H as _ <- _. exact Hb1. }
  destruct (record_all calls MetaAgent_init w) as [[r self] w'] eqn:E.
  apply (G _ _ _ _ _ E). simpl. lia.
Qed.

End MetaAgentMore.

(* ===================================================================== *)
(** * Further properties of the registry and of agent execution *)
(* ===================================================================== *)

Lemma assoc_get_in {A : Type} (k : string) (l : list (string * A)) :
  (exists v, assoc_get k l = Some v) <-> In k (map fst l).
Proof.
  induction l as [|[k' v'] tl IH]; simpl.
  - split; [intros [v H]; discriminate | contradiction].
  - destruct (String.eqb_spec k k') as [->|Hne].
    + split; [auto | eauto].
    + rewrite IH. split; [auto | intros [H|H]; [congruence | exact H]].
Qed.

(** X6: the registry's lookup and its listing agree: [get_agent_info]
    finds an entry for a type name exactly when [list_agents] lists that
    name. *)
Theorem get_agent_info_iff_listed (self : AgentRegistry) (t : string) :
  (exists info, get_agent_info self (VStr t) = Ok (Some info)) <->
  In t (list_agents self).
Proof.
  unfold list_agents. rewrite <- assoc_get_in. simpl.
  split; intros [info H]; exists info; congruence.
Qed.





Section ExecutionMore.
Context `{RT : Runtime}.



(** The result of a typed method, when it returns, is a typed payload. *)
Lemma typed_methods_payload (agent : Agent) (project_request config r : dict)
    (w w' : World) :
  _execute_code_analysis_agent agent project_request config w = (Ok r, w') \/
  _execute_test_automation_agent agent project_request config w = (Ok r, w') \/
  _execute_documentation_agent agent project_request config w = (Ok r, w') \/
  _execute_deployment_agent agent project_request config w = (Ok r, w') ->
  typed_payload r.
Proof.
  unfold _execute_code_analysis_agent, _execute_test_automation_agent,
    _execute_documentation_agent, _execute_deployment_agent, typed_payload.
  intros [H|[H|[H|H]]]; revert H;
    match goal with |- context [chat_with_config ?p config w] =>
      destruct (chat_with_config p config w) as [[content|e] w1] end;
    try discriminate; intros [= <- _]; exists content; auto 6.
Qed.

(** With the registry of [AgentRegistry.__init__], the dispatch that
    returns has run one of the four typed methods. *)
Lemma execute_dispatch_payload (self : InjectionEngine) (agent : Agent)
    (project_request r : dict) (w w' : World) :
  agent_registry self = AgentRegistry_init ->
  execute_dispatch self agent project_request w = (Ok r, w') ->
  typed_payload r.
Proof.
  intros Hreg. unfold execute_dispatch. rewrite Hreg.
  destruct (agent_type agent) as [| | | |t| |] eqn:Et; simpl; try discriminate.
  destruct (String.eqb_spec t "code_analysis") as [->|H1]; simpl.
  { destruct (merge_config _ _); [|discriminate].
    intros H. eapply typed_methods_payload. left. exact H. }
  destruct (String.eqb_spec t "test_automation") as [->|H2]; simpl.
  { destruct (merge_config _ _); [|discriminate].
    intros H. eapply typed_methods_payload. right. left. exact H. }
  destruct (String.eqb_spec t "documentation") as [->|H3]; simpl.
  { destruct (merge_config _ _); [|discriminate].
    intros H. eapply typed_methods_payload. right. right. left. exact H. }
  destruct (String.eqb_spec t "deployment") as [->|H4]; simpl.
  { destruct (merge_config _ _); [|discriminate].
    intros H. eapply typed_methods_payload. right. right. right. exact H. }
  discriminate.
Qed.

End ExecutionMore.

Section ResultShapes.
Context `{RT : Runtime}.

(** Whatever the registry holds, the dispatch that returns gives one of
    the five payloads. *)
Lemma execute_dispatch_any_payload (self : InjectionEngine) (agent : Agent)
    (project_request r : dict) (w w' : World) :
  execute_dispatch self agent project_request w = (Ok r, w') ->
  typed_payload r \/
  exists content, r = [("output", content); ("agent_type", agent_type agent)].
Proof.
  unfold execute_dispatch.
  match goal with |- match ?c with _ => _ end = _ -> _ =>
    destruct c as [config|]; [|discriminate] end.
  destruct (py_eq_str _ "code_analysis").
  { intros H. left. eapply typed_methods_payload. left. exact H. }
  destruct (py_eq_str _ "test_automation").
  { intros H. left. eapply typed_methods_payload. right. left. exact H. }
  destruct (py_eq_str _ "documentation").
  { intros H. left. eapply typed_methods_payload. right. right. left. exact H. }
  destruct (py_eq_str _ "deployment").
  { intros H. left. eapply typed_methods_payload. right. right. right. exact H. }
  unfold _execute_generic_agent.
  destruct (chat_with_config _ config w) as [[content|e] w1]; [|discriminate].
  intros [= <- _]. right. exists content. reflexivity.
Qed.

(** The two assignments [result['execution_time'] = ...] and
    [result['success'] = True] add two new keys at the end of a payload. *)
Lemma payload_completed (payload : dict) (t : float) (ty : pyval) :
  typed_payload payload \/
  (exists content, payload = [("output", content); ("agent_type", ty)]) ->
  dict_set "success" (VBool true) (dict_set "execution_time" (VFloat t) payload)
  = (payload ++ [("execution_time", VFloat t); ("success", VBool true)])%list.
Proof.
  intros [[content [-> | [-> | [-> | ->]]]] | [content ->]]; reflexivity.
Qed.

(** The shape of what [_execute_agent] returns, by the status it leaves. *)
Lemma _execute_agent_shape (self : InjectionEngine) (agent : Agent)
    (project_request : dict) (w : World) :
  let '(agent', result, w') := _execute_agent self agent project_request w in
  same_agent agent agent' /\
  ((status agent' = "error" /\
    execution_count agent' = execution_count agent /\
    last_executed agent' = last_executed agent /\
    exists e t, result = [("success", VBool false); ("error", VStr (exn_str e));
                          ("execution_time", VFloat t)])
   \/
   (status agent' = "completed" /\
    execution_count agent' = execution_count agent + 1 /\
    last_executed agent' <> None /\
    exists payload t w0 w1,
      execute_dispatch self (set_status agent "executing") project_request w0
      = (Ok payload, w1) /\
      result = (payload ++ [("execution_time", VFloat t);
                            ("success", VBool true)])%list)).
Proof.
  unfold _execute_agent. destruct (datetime_now w) as [start_time w0].
  destruct (execute_dispatch self _ project_request w0) as [[r|e] w1] eqn:E.
  - destruct (datetime_now w1) as [t1 w2]. destruct (datetime_now w2) as [t2 w3].
    split; [repeat split|]. right.
    split; [reflexivity|]. split; [reflexivity|]. split; [discriminate|].
    exists r, (total_seconds (t2 - start_time)), w0, w1. split; [exact E|].
    apply (payload_completed r _ (agent_type (set_status agent "executing"))).
    apply (execute_dispatch_any_payload _ _ _ _ _ _ E).
  - destruct (datetime_now w1) as [t1 w2].
    split; [repeat split|]. left.
    split; [reflexivity|]. split; [reflexivity|]. split; [reflexivity|]. eauto.
Qed.

(** X10: a failed execution returns exactly three fields, [success] false,
    the text of the exception and the elapsed time, and leaves the agent's
    [execution_count] and [last_executed] alone. *)
Theorem failed_execution_result (self : InjectionEngine) (agent agent' : Agent)
    (project_request result : dict) (w w' : World) :
  _execute_agent self agent project_request w = (agent', result, w') ->
  status agent' = "error" ->
  (exists msg t,
     result = [("success", VBool false); ("error", VStr msg);
               ("execution_time", VFloat t)]) /\
  execution_count agent' = execution_count agent /\
  last_executed agent' = last_executed agent.
Proof.
  intros E Hs. pose proof (_execute_agent_shape self agent project_request w) as H.
  rewrite E in H. destruct H as [_ [(_ & Hc & Hl & e & t & Hr) | (Hs' & _)]].
  - split; [eauto | auto].
  - rewrite Hs in Hs'. discriminate.
Qed.

(** X11: with the registry of [AgentRegistry.__init__], a completed
    execution returns the payload of one of the four typed methods
    followed by [execution_time] and [success] true; the payload of
    [_execute_generic_agent] never occurs. The agent's [last_executed] is
    set. *)
Theorem completed_execution_result (self : InjectionEngine) (agent agent' : Agent)
    (project_request result : dict) (w w' : World) :
  agent_registry self = AgentRegistry_init ->
  _execute_agent self agent project_request w = (agent', result, w') ->
  status agent' = "completed" ->
  (exists payload t,
     typed_payload payload /\
     result = (payload ++ [("execution_time", VFloat t);
                           ("success", VBool true)])%list) /\
  last_executed agent' <> None.
Proof.
  intros Hreg E Hs.
  pose proof (_execute_agent_shape self agent project_request w) as H.
  rewrite E in H.
  destruct H as [_ [(Hs' & _) | (_ & _ & Hl & payload & t & w0 & w1 & Hd & Hr)]].
  - rewrite Hs in Hs'. discriminate.
  - split; [|exact Hl]. exists payload, t. split; [|exact Hr].
    apply (execute_dispatch_payload _ _ _ _ _ _ Hreg Hd).
Qed.

(** X12: executing an agent changes its run state only: [name],
    [agent_type], [priority], [config] and [created_at] stay as they are,
    and [execution_count] never goes down. *)
Theorem execution_keeps_identity (self : InjectionEngine) (agent agent' : Agent)
    (project_request result : dict) (w w' : World) :
  _execute_agent self agent project_request w = (agent', result, w') ->
  same_agent agent agent' /\ execution_count agent <= execution_count agent'.
Proof.
  intros E. pose proof (_execute_agent_shape self agent project_request w) as H.
  rewrite E in H. destruct H as [Hsame [(_ & Hc & _) | (_ & Hc & _)]];
    split; try exact Hsame; lia.
Qed.

Ltac score_cases t :=
  unfold _calculate_performance_score, dict_getitem, dict_get_default; simpl;
  destruct (negb (PrimFloat.eqb t 0)); simpl;
  try (destruct (PrimFloat.ltb t 5); simpl);
  try (destruct (PrimFloat.ltb t 10); simpl).

(** The scores of a failed execution. *)
Lemma failed_result_score (msg : string) (t : float) :
  exists score,
    _calculate_performance_score
      [("success", VBool false); ("error", VStr msg); ("execution_time", VFloat t)]
    = Ok score /\
    (score = 0%float \/ score = 0.1%float \/ score = 0.2%float).
Proof.
  score_cases t; eexists; (split; [reflexivity|]); vm_compute; auto.
Qed.

(** X13: whenever an execution ends in status error, the score of its
    result is 0.0, 0.1 or 0.2: nothing for the failure, and the time
    bonus of an elapsed time that is not zero. *)
Theorem failed_execution_score (self : InjectionEngine) (agent agent' : Agent)
    (project_request result : dict) (w w' : World) :
  _execute_agent self agent project_request w = (agent', result, w') ->
  status agent' = "error" ->
  exists score,
    _calculate_performance_score result = Ok score /\
    (score = 0%float \/ score = 0.1%float \/ score = 0.2%float).
Proof.
  intros E Hs. pose proof (_execute_agent_shape self agent project_request w) as H.
  rewrite E in H. destruct H as [_ [(_ & _ & _ & e & t & ->) | (Hs' & _)]].
  - apply failed_result_score.
  - rewrite Hs in Hs'. discriminate.
Qed.

(** The score of a result of [_execute_agent]. *)
Lemma _execute_agent_score (self : InjectionEngine) (agent : Agent)
    (project_request : dict) (w : World) :
  exists score,
    _calculate_performance_score
      (snd (fst (_execute_agent self agent project_request w))) = Ok score /\
    in_unit_interval score = true.
Proof.
  pose proof (_execute_agent_shape self agent project_request w) as H.
  destruct (_execute_agent self agent project_request w) as [[agent' result] w'].
  simpl.
  destruct H as [_ [(_ & _ & _ & e & t & ->)
                   | (_ & _ & _ & payload & t & w0 & w1 & Hd & ->)]].
  - score_cases t; eexists; (split; [reflexivity|]); vm_compute; reflexivity.
  - apply execute_dispatch_any_payload in Hd
      as [[content [-> | [-> | [-> | ->]]]] | [content ->]];
      score_cases t; eexists; (split; [reflexivity|]); vm_compute; reflexivity.
Qed.

(** X14: every result that [_execute_agent] returns can be scored, with a
    score between 0.0 and 1.0: the MetaAgent never raises on a result of
    the engine. *)
Theorem engine_results_are_scored (self : InjectionEngine) (agent : Agent)
    (project_request : dict) (w : World) :
  exists score,
    _calculate_performance_score
      (snd (fst (_execute_agent self agent project_request w))) = Ok score /\
    in_unit_interval score = true.
Proof. apply _execute_agent_score. Qed.

End ResultShapes.

(* ===================================================================== *)
(** * Further properties of trigger evaluation *)
(* ===================================================================== *)

Lemma any_test_file_strings (names : list string) :
  any_test_file (map VStr names)
  = Ok (existsb (fun n => contains "test" (py_lower n)) names).
Proof.
  induction names as [|n tl IH]; simpl; [reflexivity|].
  destruct (contains "test" (py_lower n)); [reflexivity | exact IH].
Qed.

Lemma no_test_in_one_character (c : ascii) :
  contains "test" (String c EmptyString) = false.
Proof. cbn -[ascii_dec]. destruct (ascii_dec "t" c); reflexivity. Qed.

Lemma any_test_file_characters (cs : list ascii) :
  any_test_file (map (fun c => VStr (String c EmptyString)) cs) = Ok false.
Proof.
  induction cs as [|c tl IH]; [reflexivity|].
  cbn [map any_test_file py_lower_method py_lower].
  rewrite no_test_in_one_character. exact IH.
Qed.

Lemma strings_are_mapped (l : list pyval) :
  forallb is_string l = true -> exists names, l = map VStr names.
Proof.
  induction l as [|v tl IH]; simpl; intros H.
  - exists []. reflexivity.
  - apply andb_true_iff in H as [Hv Htl]. destruct (IH Htl) as [names ->].
    destruct v as [| | | |s| |]; try discriminate. exists (s :: names). reflexivity.
Qed.

Section TriggerMore.
Context `{RT : Runtime}.

(** X15: a condition of the fixed vocabulary, in any casing, is decided
    without the service: whatever the outcome, also when the evaluation
    raises, the world is left as it was. *)
Theorem fixed_vocabulary_makes_no_call (trigger : Trigger) (c : string)
    (project_request : dict) (w : World) :
  condition trigger = VStr c ->
  in_fixed_vocabulary (py_lower c) = true ->
  snd (_evaluate_trigger trigger project_request w) = w.
Proof.
  intros Hc Hv. unfold _evaluate_trigger. rewrite Hc. simpl.
  unfold in_fixed_vocabulary in Hv. simpl in Hv.
  destruct (String.eqb (py_lower c) "always"); [reflexivity|].
  destruct (String.eqb (py_lower c) "file_changed"); [reflexivity|].
  destruct (String.eqb (py_lower c) "test_files_modified"); [reflexivity|].
  destruct (String.eqb (py_lower c) "complexity_high"); [reflexivity|].
  destruct (String.eqb (py_lower c) "platform_web"); [reflexivity|].
  destruct (String.eqb (py_lower c) "platform_mobile"); [reflexivity|].
  discriminate.
Qed.

(** X16: when [files_modified] is a list of file names, the condition
    [test_files_modified] is true exactly when one of the names contains
    [test] in some casing. *)
Theorem test_files_modified_on_names (trigger : Trigger) (c : string)
    (project_request : dict) (names : list string) (w : World) :
  condition trigger = VStr c ->
  py_lower c = "test_files_modified" ->
  dict_get "files_modified" project_request = Some (VList (map VStr names)) ->
  _evaluate_trigger trigger project_request w
  = (Ok (VBool (existsb (fun n => contains "test" (py_lower n)) names)), w).
Proof.
  intros Hc Hl Hf. unfold _evaluate_trigger, dict_get_default.
  rewrite Hc. simpl. rewrite Hl, Hf. simpl.
  rewrite any_test_file_strings. reflexivity.
Qed.

(** X17: when [files_modified] is one file name given as a string instead
    of a list, [test_files_modified] looks at its characters one by one
    and is false whatever the name is. *)
Theorem test_files_modified_on_a_string (trigger : Trigger) (c : string)
    (project_request : dict) (file : string) (w : World) :
  condition trigger = VStr c ->
  py_lower c = "test_files_modified" ->
  dict_get "files_modified" project_request = Some (VStr file) ->
  _evaluate_trigger trigger project_request w = (Ok (VBool false), w).
Proof.
  intros Hc Hl Hf. unfold _evaluate_trigger, dict_get_default.
  rewrite Hc. simpl. rewrite Hl, Hf. simpl.
  rewrite any_test_file_characters. reflexivity.
Qed.

(** A string condition and a well-formed [files_modified] make the
    evaluation return. *)
Lemma _evaluate_trigger_returns (trigger : Trigger) (project_request : dict)
    (w : World) :
  condition_is_string trigger = true ->
  files_are_strings project_request = true ->
  exists v w', _evaluate_trigger trigger project_request w = (Ok v, w').
Proof.
  unfold condition_is_string, files_are_strings, _evaluate_trigger, dict_get_default.
  destruct (condition trigger) as [| | | |c| |]; try discriminate. intros _ Hf. simpl.
  destruct (String.eqb (py_lower c) "always"); [eauto|].
  destruct (String.eqb (py_lower c) "file_changed"); [eauto|].
  destruct (String.eqb (py_lower c) "test_files_modified").
  { destruct (dict_get "files_modified" project_request) as [[| | | | |l|]|];
      try discriminate; simpl; [|eauto].
    destruct (strings_are_mapped l Hf) as [names ->].
    rewrite any_test_file_strings. simpl. eauto. }
  destruct (String.eqb (py_lower c) "complexity_high"); [eauto|].
  destruct (String.eqb (py_lower c) "platform_web"); [eauto|].
  destruct (String.eqb (py_lower c) "platform_mobile"); [eauto|].
  destruct (_evaluate_custom_condition _ _ w). eauto.
Qed.

End TriggerMore.

(* ===================================================================== *)
(** * Further properties of request processing *)
(* ===================================================================== *)

Section ProcessMore.
Context `{RT : Runtime}.

Lemma same_agent_refl (a : Agent) : same_agent a a.
Proof. repeat split. Qed.

Lemma same_agents_refl (l : list Agent) : Forall2 same_agent l l.
Proof. induction l; constructor; auto using same_agent_refl. Qed.

Lemma same_trigger_refl (t : Trigger) : same_trigger t t.
Proof. repeat split. apply same_agents_refl. Qed.

Lemma same_triggers_refl (l : list Trigger) : Forall2 same_trigger l l.
Proof. induction l; constructor; auto using same_trigger_refl. Qed.

(** The loop over the agents of a trigger. *)
Lemma run_agents_returns (self : InjectionEngine) (ags : list Agent)
    (project_request : dict) :
  forall st : LoopState,
  exists ags' st',
    run_agents self ags project_request st = (Ok tt, ags', st') /\
    Forall2 same_agent ags ags' /\
    map ea_agent_name (ls_executed st')
    = (map ea_agent_name (ls_executed st) ++ map name ags)%list /\
    List.length (execution_history (ls_meta st'))
    = (List.length (execution_history (ls_meta st)) + List.length ags)%nat.
Proof.
  induction ags as [|agent tl IH]; intros st.
  - exists [], st. simpl. rewrite app_nil_r. repeat split; auto.
  - simpl.
    pose proof (_execute_agent_score self agent project_request (ls_world st))
      as (score & Hscore & _).
    pose proof (_execute_agent_shape self agent project_request (ls_world st)) as Hid.
    destruct (_execute_agent self agent project_request (ls_world st))
      as [[agent' result] w1] eqn:E.
    destruct Hid as [Hsame _].
    simpl in Hscore.
    destruct (analyze_execution_total agent' result (ls_meta st) w1 score Hscore)
      as (m1 & w2 & Ea).
    rewrite Ea.
    apply analyze_execution_returns in Ea as (score' & _ & Hh & _).
    match goal with |- context [run_agents self tl project_request ?s] =>
      destruct (IH s) as (tl' & st' & Er & Hf & Hn & Hl) end.
    rewrite Er. exists (agent' :: tl'), st'.
    split; [reflexivity|]. split; [constructor; assumption|].
    simpl in Hn, Hl. split.
    + rewrite Hn, map_app, <- app_assoc. simpl.
      destruct Hsame as (Hname & _). rewrite Hname. reflexivity.
    + rewrite Hl, Hh, length_app. simpl. lia.
Qed.


(** Whatever the loop over the triggers does, it records every agent it
    executes. *)
Lemma run_triggers_records (self : InjectionEngine) (ts : list Trigger)
    (project_request : dict) :
  forall st : LoopState,
  let '(_, _, st') := run_triggers self ts project_request st in
  (List.length (execution_history (ls_meta st')) + List.length (ls_executed st)
   = List.length (execution_history (ls_meta st)) + List.length (ls_executed st'))%nat.
Proof.
  induction ts as [|t tl IH]; intros st; simpl; [reflexivity|].
  destruct (truthy (enabled t)); simpl;
    [|specialize (IH st);
      destruct (run_triggers self tl project_request st) as [[r tl'] st'];
      exact IH].
  destruct (_evaluate_trigger t project_request (ls_world st)) as [[fired|e] w1];
    [|reflexivity].
  destruct (truthy fired).
  - match goal with |- context [run_agents self (agents t) project_request ?s] =>
      destruct (run_agents_returns self (agents t) project_request s)
        as (ags' & st1 & Er & _ & Hn & Hl) end.
    rewrite Er. specialize (IH st1).
    destruct (run_triggers self tl project_request st1) as [[r tl'] st'].
    apply (f_equal (@List.length _)) in Hn.
    rewrite !length_map, length_app, !length_map in Hn. simpl in Hn, Hl. lia.
  - match goal with |- context [run_triggers self tl project_request ?s] =>
      specialize (IH s);
      destruct (run_triggers self tl project_request s) as [[r tl'] st'] end.
    exact IH.
Qed.

(** X7: every agent that a request executes is recorded by the MetaAgent:
    the history grows by exactly the number of entries of the report's
    [agents_executed], also when the request ends in an error. *)
Theorem every_executed_agent_is_recorded (self : InjectionEngine)
    (project_request : dict) (w : World) :
  let '(report, self', _) := process_project_request self project_request w in
  List.length (execution_history (meta_agent self'))
  = (List.length (execution_history (meta_agent self))
     + List.length (agents_executed report))%nat.
Proof.
  unfold process_project_request. destruct (datetime_now w) as [now w0].
  match goal with |- context [run_triggers self (triggers self) project_request ?s] =>
    pose proof (run_triggers_records self (triggers self) project_request s) as H;
    destruct (run_triggers self (triggers self) project_request s) as [[r ts] st] end.
  simpl in H. destruct r; simpl; lia.
Qed.

(** The loop over the triggers, when every enabled trigger can be
    evaluated, returns; in any case it keeps the rules as they are. *)
Lemma run_triggers_same (self : InjectionEngine) (ts : list Trigger)
    (project_request : dict) :
  forall st : LoopState,
  let '(r, ts', st') := run_triggers self ts project_request st in
  Forall2 same_trigger ts ts' /\
  (forallb (fun t => negb (truthy (enabled t)) || condition_is_string t)%bool ts = true ->
   files_are_strings project_request = true ->
   r = Ok tt).
Proof.
  induction ts as [|t tl IH]; intros st; simpl.
  - split; [constructor | reflexivity].
  - destruct (truthy (enabled t)) eqn:En; simpl.
    + destruct (_evaluate_trigger t project_request (ls_world st))
        as [[fired|e] w1] eqn:Ev.
      * destruct (truthy fired).
        -- match goal with |- context [run_agents self (agents t) project_request ?s] =>
             destruct (run_agents_returns self (agents t) project_request s)
               as (ags' & st1 & Er & Hf & _) end.
           rewrite Er. specialize (IH st1).
           destruct (run_triggers self tl project_request st1) as [[r tl'] st'].
           destruct IH as [Hs Hok]. split.
           ++ constructor; [repeat split; exact Hf | exact Hs].
           ++ intros H Hfiles. apply andb_true_iff in H as [_ H]. auto.
        -- match goal with |- context [run_triggers self tl project_request ?s] =>
             specialize (IH s);
             destruct (run_triggers self tl project_request s) as [[r tl'] st'] end.
           destruct IH as [Hs Hok]. split.
           ++ constructor; [apply same_trigger_refl | exact Hs].
           ++ intros H Hfiles. apply andb_true_iff in H as [_ H]. auto.
      * split; [apply same_triggers_refl|].
        intros H Hfiles. apply andb_true_iff in H as [Hc _].
        destruct (_evaluate_trigger_returns t project_request (ls_world st) Hc Hfiles)
          as (v & w' & Ev'). congruence.
    + specialize (IH st).
      destruct (run_triggers self tl project_request st) as [[r tl'] st'].
      destruct IH as [Hs Hok]. split.
      * constructor; [apply same_trigger_refl | exact Hs].
      * intros H Hfiles. auto.
Qed.

(** X19: failures of individual agents never fail the request: when the
    condition of every enabled trigger is a string and [files_modified]
    is absent or a list of strings, the report has [overall_status]
    success, no [error], and the MetaAgent's suggestions as they are at
    the end of the run. *)
Theorem well_formed_request_succeeds (self : InjectionEngine)
    (project_request : dict) (w : World) :
  forallb (fun t => negb (truthy (enabled t)) || condition_is_string t)%bool
          (triggers self) = true ->
  files_are_strings project_request = true ->
  let '(report, self', _) := process_project_request self project_request w in
  overall_status report = "success" /\
  error report = None /\
  meta_agent_insights report = optimization_rules (meta_agent self').
Proof.
  intros Hc Hf. unfold process_project_request.
  destruct (datetime_now w) as [now w0].
  match goal with |- context [run_triggers self (triggers self) project_request ?s] =>
    pose proof (run_triggers_same self (triggers self) project_request s) as H;
    destruct (run_triggers self (triggers self) project_request s) as [[r ts] st] end.
  destruct H as [_ H]. rewrite (H Hc Hf). simpl. auto.
Qed.

(** X20: processing a request changes nothing of the rules: afterwards the
    engine has the same triggers, in the same order, with the same names,
    conditions and [enabled] flags and the same agents up to their run
    state; registry, [active_agents] and rules file are untouched, so
    [get_system_status] reports the same counts as before. *)
Theorem processing_keeps_the_rules (self : InjectionEngine)
    (project_request : dict) (w : World) :
  let '(_, self', _) := process_project_request self project_request w in
  Forall2 same_trigger (triggers self) (triggers self') /\
  agent_registry self' = agent_registry self /\
  active_agents self' = active_agents self /\
  rules_file self' = rules_file self /\
  total_triggers (get_system_status self') = total_triggers (get_system_status self) /\
  enabled_triggers (get_system_status self')
  = enabled_triggers (get_system_status self) /\
  st_active_agents (get_system_status self')
  = st_active_agents (get_system_status self).
Proof.
  unfold process_project_request. destruct (datetime_now w) as [now w0].
  match goal with |- context [run_triggers self (triggers self) project_request ?s] =>
    pose proof (run_triggers_same self (triggers self) project_request s) as H;
    destruct (run_triggers self (triggers self) project_request s) as [[r ts] st] end.
  destruct H as [Hs _].
  assert (G : Forall2 same_trigger (triggers self) ts /\
              List.length ts = List.length (triggers self) /\
              List.length (filter (fun t => truthy (enabled t)) ts)
              = List.length (filter (fun t => truthy (enabled t)) (triggers self))).
  { split; [exact Hs|]. clear -Hs. induction Hs as [|t t' l l' Ht Hl IH]; simpl.
    - auto.
    - destruct IH as [IH1 IH2]. destruct Ht as (_ & _ & He & _). rewrite He.
      split; [lia|]. destruct (truthy (enabled t)); simpl; lia. }
  destruct G as (G1 & G2 & G3).
  destruct r; simpl; repeat split; assumption.
Qed.

(** X21: disabled triggers are skipped: when no trigger is enabled (the
    [enabled] value of each is falsy), nothing is evaluated or executed;
    the report is a success with no agents and the MetaAgent's current
    suggestions, the engine is unchanged and the world has only had its
    clock read once. *)
Theorem disabled_triggers_are_skipped (self : InjectionEngine)
    (project_request : dict) (w : World) :
  forallb (fun t => negb (truthy (enabled t))) (triggers self) = true ->
  process_project_request self project_request w
  = ({| project_id := dict_get_default "id" (VStr "unknown") project_request;
        timestamp := fst (datetime_now w);
        agents_executed := [];
        overall_status := "success";
        meta_agent_insights := optimization_rules (meta_agent self);
        error := None |},
     self, snd (datetime_now w)).
Proof.
  intros H. unfold process_project_request. destruct (datetime_now w) as [now w0].
  assert (G : forall ts st,
             forallb (fun t => negb (truthy (enabled t))) ts = true ->
             run_triggers self ts project_request st = (Ok tt, ts, st)).
  { induction ts as [|t tl IH]; intros st Hd; simpl; [reflexivity|].
    simpl in Hd. apply andb_true_iff in Hd as [Ht Htl].
    rewrite Ht, (IH st Htl). reflexivity. }
  rewrite (G _ _ H). simpl. destruct self. reflexivity.
Qed.

End ProcessMore.

(* ===================================================================== *)
(** * Further properties of rule loading and of the entry point *)
(* ===================================================================== *)

Section LoadMore.
Context `{RT : Runtime}.

Lemma build_agent_built (agent_data : pyval) (a : Agent) (w w' : World) :
  build_agent agent_data w = (Ok a, w') -> fresh_agent a.
Proof.
  unfold build_agent.
  match goal with |- match ?c with _ => _ end = _ -> _ =>
    destruct c as [[[[n t] p] c0]|]; [|discriminate] end.
  unfold Agent_new. destruct (datetime_now w) as [now w1].
  intros [= <- _]. repeat split.
Qed.

Lemma build_agents_built (items : list pyval) :
  forall (acc ags : list Agent) (w w' : World),
  build_agents items acc w = (Ok ags, w') ->
  Forall fresh_agent acc -> Forall fresh_agent ags.
Proof.
  induction items as [|ad tl IH]; simpl; intros acc ags w w' H Hacc.
  - injection H as <- _. exact Hacc.
  - destruct (build_agent ad w) as [[a|e] w1] eqn:E; [|discriminate].
    apply (IH _ _ _ _ H). apply Forall_app. split; [exact Hacc|].
    constructor; [|constructor]. apply (build_agent_built _ _ _ _ E).
Qed.

Lemma getitem_entry_field (entry v : pyval) (k : string) :
  py_getitem entry k = Ok v -> entry_field k entry = Some v.
Proof.
  destruct entry as [| | | | | |d]; simpl; try discriminate.
  unfold dict_getitem. destruct (dict_get k d); [congruence | discriminate].
Qed.

(** The trigger built from an entry has the entry's name and condition
    and fresh agents. *)
Lemma build_trigger_built (trigger_data : pyval) (t : Trigger) (w w' : World) :
  build_trigger trigger_data w = (Ok t, w') ->
  entry_field "name" trigger_data = Some (trigger_name t) /\
  entry_field "condition" trigger_data = Some (condition t) /\
  Forall fresh_agent (agents t).
Proof.
  unfold build_trigger.
  match goal with |- match ?c with _ => _ end = _ -> _ =>
    destruct c as [items|]; [|discriminate] end.
  destruct (build_agents items [] w) as [[ags|e] w1] eqn:E; [|discriminate].
  destruct (py_getitem trigger_data "name") as [n|] eqn:En; [|discriminate].
  destruct (py_getitem trigger_data "condition") as [c|] eqn:Ec; [|discriminate].
  simpl. destruct (py_get trigger_data "enabled" (VBool true)); [|discriminate].
  simpl. intros [= <- _]. simpl.
  split; [apply getitem_entry_field, En|].
  split; [apply getitem_entry_field, Ec|].
  apply (build_agents_built _ _ _ _ _ E). constructor.
Qed.

Lemma load_triggers_loop_built (items : list pyval) :
  forall (acc ts : list Trigger) (w w' : World),
  load_triggers_loop items acc w = (Ok tt, ts, w') ->
  exists new,
    ts = (acc ++ new)%list /\
    map (entry_field "name") items = map (fun t => Some (trigger_name t)) new /\
    map (entry_field "condition") items = map (fun t => Some (condition t)) new /\
    Forall (fun t => Forall fresh_agent (agents t)) new.
Proof.
  induction items as [|td tl IH]; simpl; intros acc ts w w' H.
  - injection H as <- _. exists []. rewrite app_nil_r. repeat split; constructor.
  - destruct (build_trigger td w) as [[t|e] w1] eqn:E; [|discriminate].
    apply build_trigger_built in E as (Hn & Hc & Hf).
    apply IH in H as (new & -> & Hns & Hcs & Hfs).
    exists (t :: new). rewrite <- app_assoc. simpl.
    rewrite Hn, Hc, Hns, Hcs. repeat split. constructor; assumption.
Qed.

(** What a load that succeeds leaves in the engine. *)
Lemma load_rules_installed (rules_content : option string)
    (self self' : InjectionEngine) (w w' : World) :
  load_rules rules_content self w = (Ok tt, self', w') ->
  exists doc items,
    (v <- py_get doc "triggers" (VList []) ;; py_iter v) = Ok items /\
    (forall c text, rules_content = Some (String c text) ->
                    yaml_safe_load (String c text) = Ok doc) /\
    map (entry_field "name") items
    = map (fun t => Some (trigger_name t)) (triggers self') /\
    map (entry_field "condition") items
    = map (fun t => Some (condition t)) (triggers self') /\
    Forall (fun t => Forall fresh_agent (agents t)) (triggers self') /\
    meta_agent self' = meta_agent self /\
    agent_registry self' = agent_registry self.
Proof.
  unfold load_rules.
  set (parsed := match rules_content with
                 | Some (String c s) => (yaml_safe_load (String c s), w)
                 | _ => let '(text, w0) := read_rules_file (rules_file self) w in
                        (bind text yaml_safe_load, w0)
                 end).
  assert (Hp : forall c text, rules_content = Some (String c text) ->
                              fst parsed = yaml_safe_load (String c text)).
  { intros c text ->. reflexivity. }
  destruct parsed as [[doc|e] w0]; [|discriminate]. simpl in Hp.
  match goal with |- match ?c with _ => _ end = _ -> _ =>
    destruct c as [items|] eqn:Ei; [|discriminate] end.
  destruct (load_triggers_loop items [] w0) as [[r ts] w1] eqn:El.
  intros [= -> <- _].
  apply load_triggers_loop_built in El as (new & -> & Hn & Hc & Hf).
  exists doc, items. simpl.
  split; [exact Ei|]. split; [intros c text H; symmetry; apply (Hp c text H)|].
  repeat split; assumption.
Qed.

(** X22: after a load that succeeds on a given text, the engine holds one
    trigger per entry of the document's [triggers], in the document's
    order, each with the name and the condition of its entry. *)
Theorem loaded_triggers_mirror_the_document (c : ascii) (text : string)
    (doc : pyval) (self self' : InjectionEngine) (w w' : World) :
  yaml_safe_load (String c text) = Ok doc ->
  load_rules (Some (String c text)) self w = (Ok tt, self', w') ->
  exists items,
    (v <- py_get doc "triggers" (VList []) ;; py_iter v) = Ok items /\
    map (entry_field "name") items
    = map (fun t => Some (trigger_name t)) (triggers self') /\
    map (entry_field "condition") items
    = map (fun t => Some (condition t)) (triggers self').
Proof.
  intros Hy H.
  apply load_rules_installed in H as (doc' & items & Hi & Hd & Hn & Hc & _).
  specialize (Hd c text eq_refl). rewrite Hy in Hd. injection Hd as ->.
  exists items. auto.
Qed.

(** X23: loading rules resets the run state and keeps what was learnt:
    after a load that succeeds, from a text or from the rules file, every
    agent of every trigger is idle with [execution_count] 0 and no
    [last_executed], while the MetaAgent, with its history and
    suggestions, is the one the engine had. *)
Theorem reload_resets_agents_keeps_meta_agent (rules_content : option string)
    (self self' : InjectionEngine) (w w' : World) :
  load_rules rules_content self w = (Ok tt, self', w') ->
  Forall (fun t => Forall fresh_agent (agents t)) (triggers self') /\
  meta_agent self' = meta_agent self.
Proof.
  intros H.
  apply load_rules_installed in H as (doc & items & _ & _ & _ & _ & Hf & Hm & _).
  auto.
Qed.

(** X24: a document that parses to something other than a mapping (an
    empty document parses to [None]) makes [load_rules] raise
    [AttributeError]; by then the trigger set has been emptied, so the
    engine is left with no trigger at all. *)
Theorem non_mapping_document_empties_triggers (c : ascii) (text : string)
    (doc : pyval) (self : InjectionEngine) (w : World) :
  yaml_safe_load (String c text) = Ok doc ->
  (forall d, doc <> VDict d) ->
  load_rules (Some (String c text)) self w
  = (Raise (AttributeError (quote (type_name doc) ++ " object has no attribute 'get'")),
     set_triggers self [], w).
Proof.
  intros Hy Hd. unfold load_rules. rewrite Hy.
  destruct doc as [| | | | | |d]; try reflexivity.
  exfalso. apply (Hd d). reflexivity.
Qed.

(** X25: without a text, or with an empty one, the rules come from the
    rules file; when that file cannot be read or its text cannot be
    parsed, [load_rules] raises that exception and the engine is exactly
    as before. *)
Theorem unreadable_rules_file_changes_nothing (rules_content : option string)
    (self : InjectionEngine) (w : World) (e : exn) :
  rules_content = None \/ rules_content = Some "" ->
  bind (fst (read_rules_file (rules_file self) w)) yaml_safe_load = Raise e ->
  load_rules rules_content self w
  = (Raise e, self, snd (read_rules_file (rules_file self) w)).
Proof.
  intros Hrc He. unfold load_rules.
  destruct (read_rules_file (rules_file self) w) as [text w1]. simpl in *.
  destruct Hrc as [-> | ->]; rewrite He; reflexivity.
Qed.

(** X26: without an API key in the environment (unset or empty) [main]
    exits with status 1 before anything else happens: the rules file is
    not read, the service is not called and nothing is printed. *)
Theorem main_requires_api_key (json_dumps_result : Report -> outcome string)
    (json_dumps_status : SystemStatus -> outcome string)
    (api_key : option string) (w : World) :
  api_key = None \/ api_key = Some "" ->
  main json_dumps_result json_dumps_status api_key w
  = (Exited 1 (ValueError "OPENAI_API_KEY environment variable is required") [], w).
Proof. intros [-> | ->]; reflexivity. Qed.

End LoadMore.

(* ===================================================================== *)
(** * A load that fails on a missing field *)
(* ===================================================================== *)

Section LoadFailure.
Context `{RT : Runtime}.

Lemma build_agent_first_missing (d : dict) (k : string) (w : World) :
  agent_first_missing d = Some k ->
  build_agent (VDict d) w = (Raise (KeyError k), w).
Proof.
  unfold agent_first_missing, build_agent.
  destruct (has_key "name" d) eqn:Hn.
  - destruct (has_key "type" d) eqn:Ht; [discriminate|]. intros [= <-].
    apply has_key_getitem in Hn as [n Hn].
    rewrite Hn, (lacks_key_getitem _ _ Ht). reflexivity.
  - intros [= <-]. rewrite (lacks_key_getitem _ _ Hn). reflexivity.
Qed.

Lemma build_agents_first_missing (items : list pyval) (k : string) :
  agents_first_missing items = Some k ->
  forall agents w, exists w', build_agents items agents w = (Raise (KeyError k), w').
Proof.
  induction items as [|ad tl IH]; simpl; [discriminate|].
  destruct ad as [| | | | | |d]; try discriminate.
  destruct (agent_first_missing d) as [k'|] eqn:E; intros H agents w.
  - injection H as ->. rewrite (build_agent_first_missing d k w E). eauto.
  - assert (Hok : agent_entry_ok (VDict d) = true).
    { revert E. unfold agent_first_missing. simpl.
      destruct (has_key "name" d), (has_key "type" d); simpl; congruence. }
    destruct (build_agent_ok (VDict d) w Hok) as (a & w1 & Ea). rewrite Ea.
    apply IH, H.
Qed.

(** A trigger entry raises the [KeyError] of the field it is first found
    to lack. *)
Lemma build_trigger_first_missing (trigger_data : pyval) (k : string) (w : World) :
  trigger_first_missing trigger_data = Some k ->
  exists w', build_trigger trigger_data w = (Raise (KeyError k), w').
Proof.
  destruct trigger_data as [| | | | | |d]; try discriminate. simpl.
  destruct (agent_items d) as [items|] eqn:Ei; [|discriminate].
  unfold build_trigger. rewrite (agent_items_iter d items Ei).
  destruct (agents_first_missing items) as [k'|] eqn:Ea.
  - intros [= <-].
    destruct (build_agents_first_missing items k' Ea [] w) as (w' & E).
    rewrite E. eauto.
  - destruct (forallb agent_entry_ok items) eqn:Hok; [|discriminate].
    destruct (build_agents_ok items Hok [] w) as (ags & w' & E). rewrite E.
    destruct (has_key "name" d) eqn:Hn.
    + destruct (has_key "condition" d) eqn:Hc; [discriminate|]. intros [= <-].
      apply has_key_getitem in Hn as [n Hn].
      rewrite Hn, (lacks_key_getitem _ _ Hc). simpl. eauto.
    + intros [= <-]. rewrite (lacks_key_getitem _ _ Hn). simpl. eauto.
Qed.

Lemma agents_missing_first (items : list pyval) :
  agents_missing_field items
  = match agents_first_missing items with Some _ => true | None => false end.
Proof.
  induction items as [|ad tl IH]; simpl; [reflexivity|].
  destruct ad as [| | | | | |a]; try reflexivity.
  unfold agent_first_missing.
  destruct (has_key "name" a), (has_key "type" a); simpl; auto.
Qed.

Lemma agents_first_missing_required (items : list pyval) (k : string) :
  agents_first_missing items = Some k -> required_field k = true.
Proof.
  induction items as [|ad tl IH]; simpl; [discriminate|].
  destruct ad as [| | | | | |a]; try discriminate.
  unfold agent_first_missing.
  destruct (has_key "name" a), (has_key "type" a); simpl;
    try exact IH; intros [= <-]; reflexivity.
Qed.

(** The entries with a first missing field are the entries that lack a
    required field, and the field is one of the required ones. *)
Lemma first_missing_is_required (trigger_data : pyval) :
  trigger_entry_missing_field trigger_data = true <->
  exists k, trigger_first_missing trigger_data = Some k /\ required_field k = true.
Proof.
  destruct trigger_data as [| | | | | |d]; simpl;
    try (split; [discriminate | intros (k & H & _); discriminate]).
  destruct (agent_items d) as [items|];
    [|split; [discriminate | intros (k & H & _); discriminate]].
  rewrite agents_missing_first.
  destruct (agents_first_missing items) as [k'|] eqn:Ea; simpl.
  - split; [intros _|reflexivity]. exists k'. split; [reflexivity|].
    apply (agents_first_missing_required items k' Ea).
  - destruct (forallb agent_entry_ok items); simpl;
      [|split; [discriminate | intros (k & H & _); discriminate]].
    destruct (has_key "name" d), (has_key "condition" d); simpl;
      split; eauto; try discriminate; intros (k & H & _); discriminate.
Qed.

(** [load_rules] on a document that is a mapping. *)
Lemma load_rules_on_document (rules_content : option string)
    (self : InjectionEngine) (w w0 : World) (d : dict) (items : list pyval) :
  document_of rules_content self w (VDict d) w0 ->
  dict_get "triggers" d = Some (VList items) ->
  load_rules rules_content self w
  = (let '(r, ts, w') := load_triggers_loop items [] w0 in
     (r, set_triggers self ts, w')).
Proof.
  intros Hdoc Hd. unfold load_rules.
  inversion Hdoc as [c text ? ? ? Hy | ? ? ? ? text ? Hrc Hread Hy]; subst.
  - rewrite Hy. unfold py_get, dict_get_default. rewrite Hd. simpl.
    destruct (load_triggers_loop items [] w0) as [[r ts] w']. reflexivity.
  - destruct Hrc as [-> | ->]; rewrite Hread; simpl; rewrite Hy;
      unfold py_get, dict_get_default; rewrite Hd; simpl;
      destruct (load_triggers_loop items [] w0) as [[r ts] w']; reflexivity.
Qed.

(** C4 (amended): take any rules document, given as a text or read from
    the rules file, in which a trigger entry [bad] lacks a required field
    after well-formed entries [good]. [load_rules] raises the [KeyError]
    of the field that [bad] is first found to lack; the trigger set
    loaded before is gone, and the engine is left with the triggers
    built from [good], one per entry and in order, with the names and the
    conditions of those entries. *)
Theorem load_rules_failure_installs_prefix (self : InjectionEngine)
    (rules_content : option string) (d : dict) (good rest : list pyval)
    (bad : pyval) (k : string) (w w0 : World) :
  document_of rules_content self w (VDict d) w0 ->
  dict_get "triggers" d = Some (VList (good ++ bad :: rest)) ->
  forallb trigger_entry_ok good = true ->
  trigger_first_missing bad = Some k ->
  exists ts w1 w',
    load_triggers_loop good [] w0 = (Ok tt, ts, w1) /\
    List.length ts = List.length good /\
    map (entry_field "name") good = map (fun t => Some (trigger_name t)) ts /\
    map (entry_field "condition") good = map (fun t => Some (condition t)) ts /\
    load_rules rules_content self w
    = (Raise (KeyError k), set_triggers self ts, w').
Proof.
  intros Hdoc Hd Hgood Hbad.
  destruct (load_triggers_loop_ok good Hgood [] w0) as (ts & w1 & E & Hlen).
  destruct (build_trigger_first_missing bad k w1 Hbad) as (w' & Eb).
  simpl in E.
  destruct (load_triggers_loop_built good [] ts w0 w1 E) as (new & Hnew & Hn & Hc & _).
  simpl in Hnew. subst new.
  exists ts, w1, w'.
  split; [exact E|]. split; [exact Hlen|]. split; [exact Hn|]. split; [exact Hc|].
  rewrite (load_rules_on_document _ _ _ _ _ _ Hdoc Hd).
  rewrite (load_triggers_loop_app good (bad :: rest) [] w0 ts w1 E).
  simpl. rewrite Eb. reflexivity.
Qed.

End LoadFailure.

(* ===================================================================== *)
(** * Concrete runs *)
(* ===================================================================== *)

(** C2 (as stated, refuted): a result whose quality score is -1.0 is
    recorded with the performance score -0.3, which is below 0.0. *)
Lemma negative_quality_score_leaves_unit_interval :
  exists self' w',
    analyze_execution (sample_agent "reviewer" "code_analysis")
                      result_negative_quality MetaAgent_init (ticking_world [])
    = (Ok tt, self', w') /\
    map performance_score (execution_history self') = [(-0.3)%float] /\
    map (fun r => in_unit_interval (performance_score r)) (execution_history self')
    = [false].
Proof.
  eexists. eexists. split; [vm_compute; reflexivity|].
  split; vm_compute; reflexivity.
Qed.

(** A quality score of 7.5 is capped: the stored score is in the unit
    interval. *)
Lemma stored_score_in_unit_interval_witness :
  exists record,
    execution_history
      (snd (fst (analyze_execution (sample_agent "reviewer" "code_analysis")
                                   result_high_quality MetaAgent_init
                                   (ticking_world []))))
    = (execution_history MetaAgent_init ++ [record])%list /\
    ed_result record = result_high_quality /\
    in_unit_interval (performance_score record) = true.
Proof.
  apply (stored_score_in_unit_interval
           (sample_agent "reviewer" "code_analysis") result_high_quality
           MetaAgent_init _ (ticking_world [])
           (snd (analyze_execution (sample_agent "reviewer" "code_analysis")
                                   result_high_quality MetaAgent_init
                                   (ticking_world [])))).
  - intros q H. vm_compute in H. injection H as <-. intros _. vm_compute. reflexivity.
  - vm_compute. reflexivity.
Defined.

(** One execution that scores 1.0, nine that score 0.59, and an eleventh
    that scores 0.59: the average of the last ten is 0.59 and the eleventh
    record appends the first suggestion, naming its agent. *)
Lemma low_average_appends_one_suggestion_witness :
  exists self w1 self' w',
    record_all one_best_nine_modest MetaAgent_init (ticking_world [])
    = (Ok tt, self, w1) /\
    analyze_execution (sample_agent "tester" "test_automation") result_modest self w1
    = (Ok tt, self', w') /\
    List.length (execution_history self) = List.length one_best_nine_modest /\
    map performance_score (execution_history self') = scores_best_then_modest /\
    optimization_rules self' =
      (optimization_rules self ++
       (if (10 <=? List.length one_best_nine_modest)%nat
        then [suggestion_for (name (sample_agent "tester" "test_automation"))]
        else []))%list /\
    List.length (optimization_rules self')
    = (List.length one_best_nine_modest + 1 - 10)%nat.
Proof.
  apply (low_average_appends_one_suggestion
           one_best_nine_modest (sample_agent "tester" "test_automation")
           result_modest scores_best_then_modest (ticking_world [])).
  - repeat (constructor; [vm_compute; reflexivity|]). constructor.
  - vm_compute. reflexivity.
Defined.

(** In that run the average of all eleven scores is not below 0.6; the
    suggestion comes from the last ten. *)
Lemma eleven_scores_average_is_not_low :
  PrimFloat.ltb (PrimFloat.div (fold_sum scores_best_then_modest) 11) 0.6 = false /\
  PrimFloat.ltb (window_average scores_best_then_modest 11) 0.6 = true.
Proof. split; vm_compute; reflexivity. Qed.

(** Twenty failed executions in a row: the twentieth appends the tenth
    suggestion. *)
Lemma twenty_failures_give_ten_suggestions :
  let '(r, self, _) :=
    record_all (nineteen_failures ++ [(sample_agent "tester" "test_automation",
                                       result_failed)])
               MetaAgent_init (ticking_world []) in
  r = Ok tt /\ List.length (execution_history self) = 20%nat /\
  List.length (optimization_rules self) = 10%nat.
Proof. vm_compute. repeat split. Qed.

(** With a clock that does not advance between its two readings, the
    failed execution of an agent reports an elapsed time of 0.0; the score
    of that result has no time bonus, where the rule of the specification
    gives 0.2. *)
Lemma frozen_clock_result_gets_no_time_bonus :
  let result :=
    snd (fst (_execute_agent engine_with_nightly analyst [] (frozen_world []))) in
  dict_get "execution_time" result = Some (VFloat 0%float) /\
  _calculate_performance_score result = Ok 0%float /\
  specified_performance_score result = Ok 0.2%float.
Proof. repeat split; vm_compute; reflexivity. Qed.

(** C4 (as stated, refuted): an engine that has loaded the trigger
    [nightly] is given a document whose second trigger has no
    [condition]: the load raises [KeyError], and the engine is left with
    the document's first trigger, not with the trigger set it had. *)
Lemma failed_load_replaces_triggers :
  let '(r, engine', _) :=
    load_rules (Some "rules: missing condition") engine_with_nightly
               (ticking_world []) in
  r = Raise (KeyError "condition") /\
  map trigger_name (triggers engine_with_nightly) = [VStr "nightly"] /\
  map trigger_name (triggers engine') = [VStr "on_change"] /\
  triggers engine' <> triggers engine_with_nightly.
Proof.
  vm_compute. repeat split. intros H. discriminate H.
Qed.

Lemma load_rules_failure_installs_prefix_witness :
  exists ts w1 w',
    load_triggers_loop [entry_on_change] [] (ticking_world []) = (Ok tt, ts, w1) /\
    List.length ts = List.length [entry_on_change] /\
    map (entry_field "name") [entry_on_change]
    = map (fun t => Some (trigger_name t)) ts /\
    map (entry_field "condition") [entry_on_change]
    = map (fun t => Some (condition t)) ts /\
    load_rules (Some "rules: missing condition") engine_with_nightly (ticking_world [])
    = (Raise (KeyError "condition"), set_triggers engine_with_nightly ts, w').
Proof.
  apply (load_rules_failure_installs_prefix
           engine_with_nightly (Some "rules: missing condition")
           [("triggers", VList [entry_on_change; entry_broken])]
           [entry_on_change] [] entry_broken "condition"
           (ticking_world []) (ticking_world []));
    try reflexivity.
  apply (from_text "r" "ules: missing condition"). reflexivity.
Defined.

(** The same document read from the rules file, as [main] loads it: the
    load raises and leaves the document's first trigger behind. *)
Lemma failed_load_from_file_replaces_triggers :
  let '(r, engine', _) :=
    load_rules (RT := broken_file_runtime) None engine_with_nightly
               broken_file_world in
  r = Raise (KeyError "condition") /\
  map trigger_name (triggers engine') = [VStr "on_change"].
Proof. vm_compute. split; reflexivity. Qed.

(** C5 (as stated, refuted): the type [code_analysis] is in the registry
    and its method runs and raises, the service being down; the attempt
    ends in status error and [execution_count] has not moved. *)
Lemma errored_run_is_not_counted :
  let w := ticking_world [] in
  let '(agent', result, _) := _execute_agent engine_with_nightly reviewer [] w in
  (exists info,
     get_agent_info (agent_registry engine_with_nightly) (agent_type reviewer)
     = Ok (Some info) /\
     fst (_execute_code_analysis_agent (set_status reviewer "executing") []
            (default_config info) (snd (datetime_now w)))
     = Raise (ServiceError "Connection error.")) /\
  status agent' = "error" /\
  execution_count reviewer = 0 /\
  execution_count agent' = 0 /\
  execution_count agent' <> execution_count reviewer + 1.
Proof.
  vm_compute. split; [eexists; split; reflexivity|].
  repeat split. discriminate.
Qed.

Lemma execution_count_counts_completed_runs_witness :
  let run := _execute_agent engine_with_nightly reviewer request_with_files
                            (ticking_world [Ok (VStr "Looks fine.")]) in
  let agent' := fst (fst run) in
  (status agent' = "completed" \/ status agent' = "error") /\
  (status agent' = "completed" -> execution_count agent' = execution_count reviewer + 1) /\
  (status agent' = "error" -> execution_count agent' = execution_count reviewer) /\
  (get_agent_info (agent_registry engine_with_nightly) (agent_type reviewer) = Ok None ->
   status agent' = "error").
Proof.
  apply (execution_count_counts_completed_runs
           engine_with_nightly reviewer _ request_with_files
           (snd (fst (_execute_agent engine_with_nightly reviewer request_with_files
                                     (ticking_world [Ok (VStr "Looks fine.")]))))
           (ticking_world [Ok (VStr "Looks fine.")])
           (snd (_execute_agent engine_with_nightly reviewer request_with_files
                                (ticking_world [Ok (VStr "Looks fine.")])))).
  vm_compute. reflexivity.
Defined.

(** The run of the witness above does complete, in 3 seconds of the
    scripted clock, and is counted. *)
Lemma completed_run_is_counted :
  let '(agent', result, _) :=
    _execute_agent engine_with_nightly reviewer request_with_files
                   (ticking_world [Ok (VStr "Looks fine.")]) in
  status agent' = "completed" /\ execution_count agent' = 1 /\
  result = [("analysis", VStr "Looks fine.");
            ("quality_score", VFloat 0.85%float);
            ("recommendations_count", VInt 5);
            ("execution_time", VFloat 3%float);
            ("success", VBool true)].
Proof. vm_compute. repeat split; reflexivity. Qed.


Lemma custom_condition_true_iff_service_says_true_witness :
  exists b w',
    _evaluate_trigger (sample_trigger "urgent" (VStr "Is_Urgent") []) request_with_files
                      (ticking_world [Ok (VStr "  TRUE ")])
    = (Ok (VBool b), w') /\
    (b = true <->
     exists s,
       fst (chat_completions_create
              (custom_condition_request (py_lower "Is_Urgent") request_with_files)
              (ticking_world [Ok (VStr "  TRUE ")]))
       = Ok (VStr s) /\
       py_lower (py_strip s) = "true").
Proof.
  apply (custom_condition_true_iff_service_says_true
           (sample_trigger "urgent" (VStr "Is_Urgent") []) "Is_Urgent"
           request_with_files (ticking_world [Ok (VStr "  TRUE ")]));
    reflexivity.
Defined.

(** The three kinds of answer: a padded [TRUE] fires the trigger, [false]
    does not, and neither does a failure of the service. *)
Lemma custom_condition_runs :
  let t := sample_trigger "urgent" (VStr "Is_Urgent") [] in
  fst (_evaluate_trigger t request_with_files (ticking_world [Ok (VStr "  TRUE ")]))
  = Ok (VBool true) /\
  fst (_evaluate_trigger t request_with_files (ticking_world [Ok (VStr "false")]))
  = Ok (VBool false) /\
  fst (_evaluate_trigger t request_with_files (ticking_world [Ok (VStr "true.")]))
  = Ok (VBool false) /\
  fst (_evaluate_trigger t request_with_files (ticking_world [Ok VNone]))
  = Ok (VBool false) /\
  fst (_evaluate_trigger t request_with_files (ticking_world []))
  = Ok (VBool false).
Proof. repeat split; vm_compute; reflexivity. Qed.

(** C8 (the code departs from the claim): for a request whose
    [files_modified] is the list [['src/app.py']], the condition
    [file_changed] evaluates to that list, not to the boolean [True]. *)
Theorem file_changed_returns_a_list :
  fst (_evaluate_trigger (sample_trigger "on_change" (VStr "file_changed") [])
                         request_with_files (ticking_world []))
  = Ok (VList [VStr "src/app.py"]) /\
  truthy (VList [VStr "src/app.py"]) = true /\
  VList [VStr "src/app.py"] <> VBool true.
Proof. repeat split; try (vm_compute; reflexivity). discriminate. Qed.

Lemma always_matches_exactly_witness :
  _evaluate_trigger (sample_trigger "every time" (VStr "ALWAYS") []) request_with_files
                    (ticking_world [])
  = (Ok (VBool true), ticking_world []).
Proof.
  apply (proj1 (always_matches_exactly request_with_files (ticking_world []))
               (sample_trigger "every time" (VStr "ALWAYS") []) "ALWAYS");
    reflexivity.
Defined.

(** [always] with a trailing space reaches the service. *)
Lemma always_with_space_asks_the_service :
  _evaluate_trigger (sample_trigger "nearly" (VStr "always ") []) request_with_files
                    (ticking_world [Ok (VStr "false")])
  = (Ok (VBool false), ticking_world []).
Proof. vm_compute. reflexivity. Qed.

Lemma failed_request_reports_no_insights_witness :
  let run := process_project_request engine_with_bad_condition request_with_files
                                     (ticking_world []) in
  let report := fst (fst run) in
  overall_status report = "error" /\
  meta_agent_insights report = [] /\
  error report = Some "'int' object has no attribute 'lower'" /\
  agents_executed report =
    ls_executed
      (snd (run_triggers engine_with_bad_condition (triggers engine_with_bad_condition)
              request_with_files
              {| ls_meta := meta_agent engine_with_bad_condition; ls_executed := [];
                 ls_world := snd (datetime_now (ticking_world [])) |})).
Proof.
  apply (failed_request_reports_no_insights
           engine_with_bad_condition request_with_files (ticking_world [])
           (AttributeError "'int' object has no attribute 'lower'")
           (snd (fst (run_triggers engine_with_bad_condition
                        (triggers engine_with_bad_condition) request_with_files
                        {| ls_meta := meta_agent engine_with_bad_condition;
                           ls_executed := [];
                           ls_world := snd (datetime_now (ticking_world [])) |})))).
  vm_compute. reflexivity.
Defined.

(** In that run one agent was executed before the failure, and the
    MetaAgent still holds its two suggestions, which the report omits. *)
Lemma failed_request_keeps_suggestions :
  let run := process_project_request engine_with_bad_condition request_with_files
                                     (ticking_world []) in
  List.length (agents_executed (fst (fst run))) = 1%nat /\
  List.length (optimization_rules (meta_agent (snd (fst run)))) = 2%nat /\
  meta_agent_insights (fst (fst run)) = [].
Proof. repeat split; vm_compute; reflexivity. Qed.

(* ===================================================================== *)
(** * Concrete runs for the further properties *)
(* ===================================================================== *)

Ltac run_eq := vm_compute; reflexivity.

Lemma score_never_above_one_witness :
  PrimFloat.ltb 1 1 = false /\
  _calculate_performance_score result_high_quality = Ok 1%float.
Proof.
  split; [|run_eq].
  apply (score_never_above_one result_high_quality 1). run_eq.
Defined.

Lemma score_depends_on_three_fields_witness :
  _calculate_performance_score result_documentation
  = _calculate_performance_score result_bare.
Proof.
  apply (score_depends_on_three_fields result_documentation result_bare);
    reflexivity.
Defined.

Lemma textual_quality_score_is_not_recorded_witness :
  analyze_execution reviewer [("quality_score", VStr "high")] seasoned_meta
                    (ticking_world [])
  = (Raise (TypeError "can't multiply sequence by non-int of type 'float'"),
     seasoned_meta, snd (datetime_now (ticking_world []))).
Proof.
  apply (textual_quality_score_is_not_recorded
           reviewer [("quality_score", VStr "high")] "high" seasoned_meta
           (ticking_world [])).
  - reflexivity.
  - discriminate.
Defined.

Lemma record_all_only_appends_witness :
  let run := record_all nineteen_failures seasoned_meta (ticking_world []) in
  exists hs rs,
    execution_history (snd (fst run)) = (execution_history seasoned_meta ++ hs)%list /\
    optimization_rules (snd (fst run)) = (optimization_rules seasoned_meta ++ rs)%list /\
    (List.length rs <= List.length hs <= List.length nineteen_failures)%nat.
Proof.
  intros run.
  apply (record_all_only_appends nineteen_failures seasoned_meta (snd (fst run))
           (ticking_world []) (snd run) (fst (fst run))).
  run_eq.
Defined.



Lemma failed_execution_result_witness :
  let run := _execute_agent engine_with_nightly reviewer request_with_files
                            (ticking_world [Raise (ServiceError "Rate limit reached")]) in
  (exists msg t,
     snd (fst run) = [("success", VBool false); ("error", VStr msg);
                      ("execution_time", VFloat t)]) /\
  execution_count (fst (fst run)) = execution_count reviewer /\
  last_executed (fst (fst run)) = last_executed reviewer.
Proof.
  intros run.
  apply (failed_execution_result
           engine_with_nightly reviewer (fst (fst run)) request_with_files
           (snd (fst run)) (ticking_world [Raise (ServiceError "Rate limit reached")])
           (snd run));
    run_eq.
Defined.

Lemma completed_execution_result_witness :
  let run := _execute_agent engine_with_nightly reviewer request_with_files
                            (ticking_world [Ok (VStr "Looks fine.")]) in
  (exists payload t,
     typed_payload payload /\
     snd (fst run) = (payload ++ [("execution_time", VFloat t);
                                  ("success", VBool true)])%list) /\
  last_executed (fst (fst run)) <> None.
Proof.
  intros run.
  apply (completed_execution_result
           engine_with_nightly reviewer (fst (fst run)) request_with_files
           (snd (fst run)) (ticking_world [Ok (VStr "Looks fine.")]) (snd run));
    run_eq.
Defined.

Lemma execution_keeps_identity_witness :
  let run := _execute_agent engine_with_nightly reviewer request_with_files
                            (ticking_world [Ok (VStr "Looks fine.")]) in
  same_agent reviewer (fst (fst run)) /\
  execution_count reviewer <= execution_count (fst (fst run)).
Proof.
  intros run.
  apply (execution_keeps_identity
           engine_with_nightly reviewer (fst (fst run)) request_with_files
           (snd (fst run)) (ticking_world [Ok (VStr "Looks fine.")]) (snd run)).
  run_eq.
Defined.

Lemma failed_execution_score_witness :
  let run := _execute_agent engine_with_nightly analyst request_with_files
                            (ticking_world []) in
  exists score,
    _calculate_performance_score (snd (fst run)) = Ok score /\
    (score = 0%float \/ score = 0.1%float \/ score = 0.2%float).
Proof.
  intros run.
  apply (failed_execution_score
           engine_with_nightly analyst (fst (fst run)) request_with_files
           (snd (fst run)) (ticking_world []) (snd run));
    run_eq.
Defined.

Lemma fixed_vocabulary_makes_no_call_witness :
  snd (_evaluate_trigger (sample_trigger "tests" (VStr "Test_Files_Modified") [])
                         [("files_modified", VInt 3)]
                         (ticking_world [Ok (VStr "true")]))
  = ticking_world [Ok (VStr "true")].
Proof.
  apply (fixed_vocabulary_makes_no_call
           (sample_trigger "tests" (VStr "Test_Files_Modified") [])
           "Test_Files_Modified" [("files_modified", VInt 3)]
           (ticking_world [Ok (VStr "true")]));
    reflexivity.
Defined.

Lemma test_files_modified_on_names_witness :
  _evaluate_trigger (sample_trigger "tests" (VStr "test_files_modified") [])
                    [("files_modified", VList (map VStr ["src/app.js"; "src/AppTest.js"]))]
                    (ticking_world [])
  = (Ok (VBool (existsb (fun n => contains "test" (py_lower n))
                        ["src/app.js"; "src/AppTest.js"])),
     ticking_world []).
Proof.
  apply (test_files_modified_on_names
           (sample_trigger "tests" (VStr "test_files_modified") [])
           "test_files_modified"
           [("files_modified", VList (map VStr ["src/app.js"; "src/AppTest.js"]))]
           ["src/app.js"; "src/AppTest.js"] (ticking_world []));
    reflexivity.
Defined.

Lemma test_files_modified_on_a_string_witness :
  _evaluate_trigger (sample_trigger "tests" (VStr "test_files_modified") [])
                    [("files_modified", VStr "tests/test_api.py")] (ticking_world [])
  = (Ok (VBool false), ticking_world []).
Proof.
  apply (test_files_modified_on_a_string
           (sample_trigger "tests" (VStr "test_files_modified") [])
           "test_files_modified" [("files_modified", VStr "tests/test_api.py")]
           "tests/test_api.py" (ticking_world []));
    reflexivity.
Defined.

Lemma well_formed_request_succeeds_witness :
  let '(report, self', _) :=
    process_project_request engine_mixed request_with_files
                            (ticking_world [Raise (ServiceError "Rate limit reached")]) in
  overall_status report = "success" /\
  error report = None /\
  meta_agent_insights report = optimization_rules (meta_agent self').
Proof.
  apply (well_formed_request_succeeds
           engine_mixed request_with_files
           (ticking_world [Raise (ServiceError "Rate limit reached")]));
    reflexivity.
Defined.

(** In that run both agents of the enabled trigger failed, one for its
    unknown type and one for the service, and the request succeeded. *)
Lemma mixed_run_reports_both_failures :
  let '(report, self', _) :=
    process_project_request engine_mixed request_with_files
                            (ticking_world [Raise (ServiceError "Rate limit reached")]) in
  map (fun x => dict_get "error" (ea_result x)) (agents_executed report)
  = [Some (VStr "Unknown agent type: data_science");
     Some (VStr "Rate limit reached")] /\
  overall_status report = "success".
Proof. vm_compute. split; reflexivity. Qed.

Lemma disabled_triggers_are_skipped_witness :
  process_project_request engine_all_disabled request_with_files
                          (ticking_world [Ok (VStr "never asked")])
  = ({| project_id := VStr "demo-project-001";
        timestamp := 0;
        agents_executed := [];
        overall_status := "success";
        meta_agent_insights := optimization_rules seasoned_meta;
        error := None |},
     engine_all_disabled,
     {| clock := 1500000; tick := 1500000; replies := [Ok (VStr "never asked")] |}).
Proof.
  apply (disabled_triggers_are_skipped
           engine_all_disabled request_with_files
           (ticking_world [Ok (VStr "never asked")])).
  reflexivity.
Defined.

Lemma loaded_triggers_mirror_the_document_witness :
  let run := load_rules (RT := filed_runtime) (Some "rules: two triggers")
                        engine_with_nightly (filed_world []) in
  exists items,
    (v <- py_get rules_two_triggers "triggers" (VList []) ;; py_iter v) = Ok items /\
    map (entry_field "name") items
    = map (fun t => Some (trigger_name t)) (triggers (snd (fst run))) /\
    map (entry_field "condition") items
    = map (fun t => Some (condition t)) (triggers (snd (fst run))).
Proof.
  intros run.
  apply (loaded_triggers_mirror_the_document (RT := filed_runtime)
           "r" "ules: two triggers" rules_two_triggers engine_with_nightly
           (snd (fst run)) (filed_world []) (snd run));
    run_eq.
Defined.

(** The triggers that this load installs. *)
Lemma loaded_two_triggers :
  let run := load_rules (RT := filed_runtime) (Some "rules: two triggers")
                        engine_with_nightly (filed_world []) in
  map trigger_name (triggers (snd (fst run))) = [VStr "on_change"; VStr "web_only"] /\
  map (fun t => map name (agents t)) (triggers (snd (fst run)))
  = [[VStr "reviewer"; VStr "writer"]; []] /\
  map enabled (triggers (snd (fst run))) = [VBool true; VBool false].
Proof. repeat split; run_eq. Qed.

Lemma reload_resets_agents_keeps_meta_agent_witness :
  let run := load_rules (RT := filed_runtime) None engine_mixed (filed_world []) in
  Forall (fun t => Forall fresh_agent (agents t)) (triggers (snd (fst run))) /\
  meta_agent (snd (fst run)) = meta_agent engine_mixed.
Proof.
  intros run.
  apply (reload_resets_agents_keeps_meta_agent (RT := filed_runtime)
           None engine_mixed (snd (fst run)) (filed_world []) (snd run)).
  run_eq.
Defined.

Lemma non_mapping_document_empties_triggers_witness :
  load_rules (RT := filed_runtime) (Some "# nothing yet") engine_with_nightly
             (filed_world [])
  = (Raise (AttributeError "'NoneType' object has no attribute 'get'"),
     set_triggers engine_with_nightly [], filed_world []).
Proof.
  apply (non_mapping_document_empties_triggers (RT := filed_runtime)
           "#" " nothing yet" VNone engine_with_nightly (filed_world [])).
  - reflexivity.
  - discriminate.
Defined.

Lemma unreadable_rules_file_changes_nothing_witness :
  load_rules (Some "") engine_with_nightly (ticking_world [])
  = (Raise (ServiceError "FileNotFoundError"), engine_with_nightly, ticking_world []).
Proof.
  apply (unreadable_rules_file_changes_nothing
           (Some "") engine_with_nightly (ticking_world [])
           (ServiceError "FileNotFoundError")).
  - right. reflexivity.
  - reflexivity.
Defined.

Lemma main_requires_api_key_witness :
  main (fun _ => Ok "{}") (fun _ => Ok "{}") (Some "") (ticking_world [])
  = (Exited 1 (ValueError "OPENAI_API_KEY environment variable is required") [],
     ticking_world []).
Proof.
  apply (main_requires_api_key (fun _ => Ok "{}") (fun _ => Ok "{}") (Some "")
                               (ticking_world [])).
  right. reflexivity.
Defined.
